(** * Admin dashboard: department and team-member management

    A shallow embedding of the two management screens of
    [src/app/(dash)/manage-departments/page.tsx] ([DepartmentList] and
    [TeamMemberList]) and of the editor toolbar configuration of
    [src/lib/quill/quillModules.ts].

    The screens are React components: their [useState] cells become the
    fields of a state record, every handler becomes a computation in a
    small state-and-exception monad, and the two effects the handlers have
    on the outside world (network requests through [fetch], notifications
    through [toast]) are appended to a log.  What the outside world answers
    (the outcome of each [fetch], of the image upload) is an argument of the
    handler that awaits it. *)

From stdpp Require Import base list strings option numbers pretty.

Local Open Scope string_scope.
Local Open Scope list_scope.

#[local] Set Warnings "-register-all".

(** ** JavaScript values

    Response bodies are whatever [res.json()] produced, and the code reads
    them untyped ([data.data], [resJson?.message]), so they are modelled as
    JSON values with JavaScript's own rules for property access, truthiness,
    [Object.keys] and spread.  An object lists its properties in
    key-iteration order.  Numbers only matter here through their truthiness,
    so integers stand for them. *)

Inductive value : Type :=
  | VUndef
  | VNull
  | VBool (b : bool)
  | VNum (n : Z)
  | VStr (s : string)
  | VArr (elems : list value)
  | VObj (props : list (string * value)).

Fixpoint value_eq_dec (v w : value) {struct v} : {v = w} + {v <> w}.
Proof.
  decide equality.
  - apply bool_eq_dec.
  - apply Z.eq_dec.
  - apply String.string_dec.
  - apply (Stdlib.Lists.List.list_eq_dec value_eq_dec).
  - apply Stdlib.Lists.List.list_eq_dec. decide equality.
    apply String.string_dec.
Defined.

#[global] Instance value_eq_decision : EqDecision value := value_eq_dec.

(** Completion of an evaluation: a normal result, or an abrupt one (a
    thrown exception, a rejected promise). *)
Inductive completion (A : Type) : Type :=
  | Normal (a : A)
  | Throw.
Arguments Normal {A} a.
Arguments Throw {A}.

(** [!!v], the condition of [if (v)] and of [v || w]. *)
Definition truthy (v : value) : bool :=
  match v with
  | VUndef | VNull => false
  | VBool b => b
  | VNum n => negb (n =? 0)%Z
  | VStr s => negb (String.eqb s "")
  | VArr _ | VObj _ => true
  end.

(** [v || w] *)
Definition js_or (v w : value) : value := if truthy v then v else w.

(** Own property of an object, first entry for the key. *)
Fixpoint own_prop (k : string) (ps : list (string * value)) : option value :=
  match ps with
  | [] => None
  | (k', v) :: ps' => if String.eqb k k' then Some v else own_prop k ps'
  end.

(** [obj[k] = v]: the property keeps its place when it is there already and
    comes last otherwise. *)
Fixpoint set_prop (k : string) (v : value) (ps : list (string * value))
  : list (string * value) :=
  match ps with
  | [] => [(k, v)]
  | (k', v') :: ps' =>
      if String.eqb k k' then (k, v) :: ps' else (k', v') :: set_prop k v ps'
  end.

(** [k in obj] for own properties. *)
Definition has_prop (k : string) (ps : list (string * value)) : bool :=
  bool_decide (k ∈ ps.*1).

(** *** Texts

    A text is held as the bytes of its UTF-8 encoding: a character beyond
    the basic plane as its four bytes, a surrogate that stands alone as the
    three bytes of its value.  JavaScript sees the text as UTF-16: [length]
    and the index keys count code units, so a character beyond the basic
    plane counts twice and is read as two surrogates, while iteration
    ([...text]) goes by whole characters. *)

(** The number of bytes of the sequence a byte leads. *)
Definition sequence_length (c : Ascii.ascii) : nat :=
  let b := Ascii.N_of_ascii c in
  if (b <? 192)%N then 1
  else if (b <? 224)%N then 2
  else if (b <? 240)%N then 3
  else if (b <? 248)%N then 4
  else 1.

(** The characters of a text, each as the text of its own bytes; [pending]
    bytes of the character [current] are still to come. *)
Fixpoint code_points_from (pending : nat) (current : string) (s : string)
  : list string :=
  match s with
  | EmptyString => match current with EmptyString => [] | _ => [current] end
  | String c rest =>
      match pending with
      | O =>
          match current with EmptyString => [] | _ => [current] end
          ++ code_points_from (sequence_length c - 1) (String c EmptyString) rest
      | S pending' =>
          code_points_from pending' (current +:+ String c EmptyString) rest
      end
  end.

Definition code_points (s : string) : list string :=
  code_points_from 0 EmptyString s.

(** A code unit of the basic plane, surrogates included, as three bytes. *)
Definition three_bytes (u : N) : string :=
  String (Ascii.ascii_of_N (N.lor 224 (N.shiftr u 12)))
    (String (Ascii.ascii_of_N (N.lor 128 (N.land (N.shiftr u 6) 63)))
       (String (Ascii.ascii_of_N (N.lor 128 (N.land u 63))) EmptyString)).

(** The code units of one character: itself, or its two surrogates when it
    takes four bytes. *)
Definition units_of (character : string) : list string :=
  match character with
  | String a (String b (String c (String d EmptyString))) =>
      let point :=
        N.lor (N.shiftl (N.land (Ascii.N_of_ascii a) 7) 18)
          (N.lor (N.shiftl (N.land (Ascii.N_of_ascii b) 63) 12)
             (N.lor (N.shiftl (N.land (Ascii.N_of_ascii c) 63) 6)
                (N.land (Ascii.N_of_ascii d) 63))) in
      let offset := (point - 65536)%N in
      [three_bytes (55296 + N.shiftr offset 10)%N;
       three_bytes (56320 + N.land offset 1023)%N]
  | _ => [character]
  end.

(** The code units of a text, which [length] counts and the index keys
    read. *)
Definition code_units (s : string) : list value :=
  VStr <$> concat (units_of <$> code_points s).

(** The characters of a text, which iteration yields. *)
Definition chars (s : string) : list value := VStr <$> code_points s.

(** Property [k] of an array-like with elements [l]: an index or [length]. *)
Definition indexed_prop (l : list value) (k : string) : value :=
  if String.eqb k "length" then VNum (Z.of_nat (length l))
  else match list_find (fun i : nat => pretty i = k) (seq 0 (length l)) with
       | Some (i, _) => default VUndef (l !! i)
       | None => VUndef
       end.

(** [v[k]] and [v.k]: a TypeError on [undefined] and [null], [undefined]
    for a property that is not there.  Members inherited from prototypes
    are left out: no handler reads one. *)
Definition get_prop (v : value) (k : string) : completion value :=
  match v with
  | VUndef | VNull => Throw
  | VBool _ | VNum _ => Normal VUndef
  | VStr s => Normal (indexed_prop (code_units s) k)
  | VArr l => Normal (indexed_prop l k)
  | VObj ps => Normal (default VUndef (own_prop k ps))
  end.

(** [v?.k] *)
Definition opt_chain (v : value) (k : string) : value :=
  match get_prop v k with
  | Normal x => x
  | Throw => VUndef
  end.

(** [Object.keys(v)] *)
Definition Object_keys (v : value) : completion (list string) :=
  match v with
  | VUndef | VNull => Throw
  | VBool _ | VNum _ => Normal []
  | VStr s => Normal (pretty <$> seq 0 (length (code_units s)))
  | VArr l => Normal (pretty <$> seq 0 (length l))
  | VObj ps => Normal (ps.*1)
  end.

(** The elements [...v] spreads: arrays and strings are iterable, anything
    else is a TypeError. *)
Definition spread (v : value) : completion (list value) :=
  match v with
  | VArr l => Normal l
  | VStr s => Normal (chars s)
  | _ => Throw
  end.

(** [`${id}`] for a [string | null]. *)
Definition template_of (id : option string) : string :=
  match id with
  | Some s => s
  | None => "null"
  end.

(** Truthiness of a [string | null] state cell. *)
Definition truthy_ref (id : option string) : bool :=
  match id with
  | Some s => negb (String.eqb s "")
  | None => false
  end.

(** What React takes as the child of an element: texts and numbers are
    shown, [null], [undefined] and booleans show nothing, an array is gone
    through child by child, and a plain object makes the render throw
    ("Objects are not valid as a React child"). *)
Fixpoint renderable (v : value) : bool :=
  match v with
  | VObj _ => false
  | VArr l =>
      (fix all (l : list value) : bool :=
         match l with
         | [] => true
         | x :: l' => renderable x && all l'
         end) l
  | _ => true
  end.

(** ** The outside world: requests, responses, notifications *)

(** The [fetch] calls of the screens differ in these options only. *)
Record request : Type := Request {
  req_method : string;
  req_url : string;
  req_no_store : bool;        (* cache: "no-store" *)
  req_json_header : bool;     (* headers: { "Content-Type": "application/json" } *)
  req_credentials : bool;     (* credentials: "include" *)
  req_body : option value     (* the object given to JSON.stringify *)
}.

(** What comes back from one [fetch]: the promise rejects, or it resolves to
    a response with a status and a body; [None] is a body [res.json()]
    cannot parse. *)
Inductive fetch_outcome : Type :=
  | Rejected
  | Responded (status : Z) (body : option value).

Record response : Type := Response {
  res_status : Z;
  res_body : option value
}.

(** [res.ok] *)
Definition res_ok (res : response) : bool :=
  (200 <=? res_status res)%Z && (res_status res <=? 299)%Z.

(** A file picked in a file input. *)
Record File : Type := { file_name : string }.

Inductive event : Type :=
  | Fetch (req : request)
  | Upload (file : File)
  | ToastSuccess (msg : value)
  | ToastError (msg : value).

(** The events that go over the network. *)
Definition is_network (e : event) : bool :=
  match e with Fetch _ | Upload _ => true | _ => false end.

Definition is_toast (e : event) : bool :=
  match e with ToastSuccess _ | ToastError _ => true | _ => false end.

(** The requests of a log, in the order they were issued. *)
Definition requests (l : list event) : list request :=
  omap (fun e => match e with Fetch r => Some r | _ => None end) l.

Definition GET (url : string) : request :=
  Request "GET" url true false false None.

(** ** The monad of handlers

    A handler runs on the state of its screen and on the log; it completes
    normally or throws, and what it did before throwing stays done. *)

Record world (S : Type) : Type := World {
  ui : S;
  log : list event
}.
Arguments World {S} ui log.
Arguments ui {S} w.
Arguments log {S} w.

Definition M (S A : Type) : Type := world S -> completion A * world S.

Definition ret {S A} (a : A) : M S A := fun w => (Normal a, w).

Definition bind {S A B} (m : M S A) (k : A -> M S B) : M S B :=
  fun w => match m w with
           | (Normal a, w') => k a w'
           | (Throw, w') => (Throw, w')
           end.

Definition throw {S A} : M S A := fun w => (Throw, w).

Declare Scope handler_scope.
Delimit Scope handler_scope with handler.
Notation "x <- m ;; k" := (bind m (fun x => k))
  (at level 100, m at next level, right associativity) : handler_scope.
Notation "m ;; k" := (bind m (fun _ => k))
  (at level 100, right associativity) : handler_scope.
Local Open Scope handler_scope.

(** An expression that may throw, evaluated inside a handler. *)
Definition eval {S A} (c : completion A) : M S A := fun w => (c, w).

Definition read {S} : M S S := fun w => (Normal (ui w), w).

Definition update {S} (f : S -> S) : M S unit :=
  fun w => (Normal tt, World (f (ui w)) (log w)).

Definition emit {S} (e : event) : M S unit :=
  fun w => (Normal tt, World (ui w) (log w ++ [e])).

(** [try { m } catch { h }] *)
Definition try_catch {S A} (m h : M S A) : M S A :=
  fun w => match m w with
           | (Normal a, w') => (Normal a, w')
           | (Throw, w') => h w'
           end.

(** [try { m } finally { f }] *)
Definition try_finally {S A} (m : M S A) (f : M S unit) : M S A :=
  fun w => match m w with
           | (c, w') => match f w' with
                        | (Normal _, w'') => (c, w'')
                        | (Throw, w'') => (Throw, w'')
                        end
           end.

(** A call of an async function whose promise nobody awaits: it runs, and a
    rejection goes unhandled.  The caller's remaining statements run before
    the callee resumes from its first [await]; they write to other state
    cells than the callee does, so the order is not kept apart here. *)
Definition detached {S} (m : M S unit) : M S unit :=
  fun w => (Normal tt, (m w).2).

(** [await fetch(url, options)] *)
Definition fetch {S} (req : request) (o : fetch_outcome) : M S response :=
  emit (Fetch req) ;;
  match o with
  | Rejected => throw
  | Responded status body => ret (Response status body)
  end.

(** The [await] of a request already sent. *)
Definition settle {S} (o : fetch_outcome) : M S response :=
  match o with
  | Rejected => throw
  | Responded status body => ret (Response status body)
  end.

(** [await res.json()] *)
Definition res_json {S} (res : response) : M S value :=
  match res_body res with
  | Some v => ret v
  | None => throw
  end.

Definition toast_success {S} (msg : value) : M S unit := emit (ToastSuccess msg).
Definition toast_error {S} (msg : value) : M S unit := emit (ToastError msg).

(** A handler started in state [s] with an empty log. *)
Definition run {S A} (m : M S A) (s : S) : completion A * world S :=
  m (World s []).

(** A fetch fails in transport: it rejects, or it answers with a non-OK
    status and a body that does not parse. *)
Definition transport_failure (o : fetch_outcome) : bool :=
  match o with
  | Rejected => true
  | Responded status body =>
      negb (res_ok (Response status body)) && bool_decide (body = None)
  end.

(** A list fetch fails: it rejects, the status is not OK, or the body does
    not parse. *)
Definition list_fetch_failure (o : fetch_outcome) : bool :=
  match o with
  | Rejected => true
  | Responded status body =>
      negb (res_ok (Response status body)) || bool_decide (body = None)
  end.

(** ** The department screen: [DepartmentList] *)

Module DepartmentList.

(** [type DepartmentForm] *)
Record DepartmentForm : Type := {
  form_name : string;
  form_description : option string
}.

(** [type Department], the fields the handlers read. *)
Record Department : Type := {
  dept_id : string;
  dept_name : string;
  dept_description : option string
}.

(** The [useState] cells and the values held by [useForm]. *)
Record state : Type := State {
  departments : value;
  loading : bool;
  isDialogOpen : bool;
  isDeleteDialogOpen : bool;
  isEdit : bool;
  currentDepartmentId : option string;
  form_values : DepartmentForm
}.

Definition initial : state :=
  State (VArr []) false false false false None
        {| form_name := ""; form_description := Some "" |}.

Definition setDepartments (v : value) : M state unit :=
  update (fun s => State v (loading s) (isDialogOpen s) (isDeleteDialogOpen s)
                         (isEdit s) (currentDepartmentId s) (form_values s)).
Definition setLoading (b : bool) : M state unit :=
  update (fun s => State (departments s) b (isDialogOpen s) (isDeleteDialogOpen s)
                         (isEdit s) (currentDepartmentId s) (form_values s)).
Definition setIsDialogOpen (b : bool) : M state unit :=
  update (fun s => State (departments s) (loading s) b (isDeleteDialogOpen s)
                         (isEdit s) (currentDepartmentId s) (form_values s)).
Definition setIsDeleteDialogOpen (b : bool) : M state unit :=
  update (fun s => State (departments s) (loading s) (isDialogOpen s) b
                         (isEdit s) (currentDepartmentId s) (form_values s)).
Definition setIsEdit (b : bool) : M state unit :=
  update (fun s => State (departments s) (loading s) (isDialogOpen s)
                         (isDeleteDialogOpen s) b (currentDepartmentId s)
                         (form_values s)).
Definition setCurrentDepartmentId (id : option string) : M state unit :=
  update (fun s => State (departments s) (loading s) (isDialogOpen s)
                         (isDeleteDialogOpen s) (isEdit s) id (form_values s)).
Definition reset (f : DepartmentForm) : M state unit :=
  update (fun s => State (departments s) (loading s) (isDialogOpen s)
                         (isDeleteDialogOpen s) (isEdit s)
                         (currentDepartmentId s) f).

(** The object [JSON.stringify(data)] serialises; an undefined field is
    left out. *)
Definition form_json (data : DepartmentForm) : value :=
  VObj (("name", VStr (form_name data))
        :: match form_description data with
           | Some d => [("description", VStr d)]
           | None => []
           end).

Section Handlers.

(** [process.env.NEXT_PUBLIC_API_BASE_URL] *)
Variable API_BASE_URL : string.

Definition fetchDepartments (o : fetch_outcome) : M state unit :=
  try_finally
    (try_catch
       (setLoading true ;;
        res <- fetch (GET (API_BASE_URL +:+ "/department")) o ;;
        (if negb (res_ok res) then throw else ret tt) ;;
        data <- res_json res ;;
        d <- eval (get_prop data "data") ;;
        setDepartments d)
       (toast_error (VStr "Failed to load departments")))
    (setLoading false).

Definition openCreateDialog : M state unit :=
  setIsEdit false ;;
  setCurrentDepartmentId None ;;
  reset {| form_name := ""; form_description := Some "" |} ;;
  setIsDialogOpen true.

Definition openEditDialog (department : Department) : M state unit :=
  setIsEdit true ;;
  setCurrentDepartmentId (Some (dept_id department)) ;;
  reset {| form_name := dept_name department;
           form_description :=
             Some (default "" (dept_description department)) |} ;;
  setIsDialogOpen true.

(** The request [onSubmit] builds from the state of the render it closes
    over. *)
Definition submit_request (s : state) (data : DepartmentForm) : request :=
  let url := if isEdit s
             then API_BASE_URL +:+ "/department/"
                  +:+ template_of (currentDepartmentId s)
             else API_BASE_URL +:+ "/department" in
  let method := if isEdit s then "PATCH" else "POST" in
  Request method url false true true (Some (form_json data)).

(** [o] answers the submission, [refetch] the list fetch that follows a
    success. *)
Definition onSubmit (data : DepartmentForm) (o refetch : fetch_outcome)
  : M state unit :=
  s <- read ;;
  res <- fetch (submit_request s data) o ;;
  resJson <- res_json res ;;
  if res_ok res then
    (toast_success
       (VStr (if isEdit s then "Department updated successfully"
              else "Department added successfully")) ;;
     setIsDialogOpen false ;;
     detached (fetchDepartments refetch))
  else
    toast_error (js_or (opt_chain resJson "message")
                       (VStr "Something went wrong")).

Definition deleteDepartment (id : string) (o refetch : fetch_outcome)
  : M state unit :=
  res <- fetch (Request "DELETE" (API_BASE_URL +:+ "/department/" +:+ id)
                        false false true None) o ;;
  data <- res_json res ;;
  if res_ok res then
    (toast_success (js_or (opt_chain data "message")
                          (VStr "Department deleted!")) ;;
     detached (fetchDepartments refetch))
  else
    toast_error (js_or (opt_chain data "message") (VStr "Delete failed")).

(** The trash button of a row. *)
Definition onClick_row_delete (department : Department) : M state unit :=
  setCurrentDepartmentId (Some (dept_id department)) ;;
  setIsDeleteDialogOpen true.

(** The Cancel button of the delete dialog. *)
Definition onClick_cancel : M state unit :=
  setIsDeleteDialogOpen false.

(** The Delete button of the delete dialog. *)
Definition onClick_delete (o refetch : fetch_outcome) : M state unit :=
  s <- read ;;
  match currentDepartmentId s with
  | Some id =>
      if truthy (VStr id) then detached (deleteDepartment id o refetch)
      else ret tt
  | None => ret tt
  end ;;
  setIsDeleteDialogOpen false.

(** [useEffect(() => { fetchDepartments(); }, [])] *)
Definition mount (o : fetch_outcome) : M state unit :=
  detached (fetchDepartments o).

End Handlers.

(** *** The table *)

(** A row of the table: what the cells are given. *)
Record row : Type := {
  row_key : value;                  (* key={department.id} *)
  row_number : Z;                   (* {index + 1} *)
  row_name : value;                 (* {department.name} *)
  row_description : option value;   (* {department.description || <span>—</span>},
                                       [None] for the dash *)
  row_team_members : value          (* {department.teams?.length || 0} *)
}.

Inductive table_body : Type :=
  | Skeletons (n : nat)
  | Rows (rows : list row)
  | NoRows (message : string).

(** A row as React renders it: reading a field of a [null] or [undefined]
    entry throws, and so does a plain object among the children of a cell. *)
Definition table_row (index : nat) (department : value) : completion row :=
  match get_prop department "id", get_prop department "name",
        get_prop department "description", get_prop department "teams" with
  | Normal id, Normal name, Normal description, Normal teams =>
      let members := js_or (opt_chain teams "length") (VNum 0) in
      if renderable name
         && (negb (truthy description) || renderable description)
         && renderable members
      then
        Normal {| row_key := id;
                  row_number := Z.of_nat index + 1;
                  row_name := name;
                  row_description :=
                    if truthy description then Some description else None;
                  row_team_members := members |}
      else Throw
  | _, _, _, _ => Throw
  end.

(** [departments.map((department, index) => ...)] from [index] on. *)
Fixpoint map_rows (index : nat) (l : list value) : completion (list row) :=
  match l with
  | [] => Normal []
  | department :: l' =>
      match table_row index department with
      | Throw => Throw
      | Normal r =>
          match map_rows (S index) l' with
          | Throw => Throw
          | Normal rs => Normal (r :: rs)
          end
      end
  end.

Section Table.

(** [v > 0] for a text or an array [v], which JavaScript first converts to
    a number. *)
Variable converted_gt_zero : value -> bool.

(** [v > 0] *)
Definition gt_zero (v : value) : bool :=
  match v with
  | VUndef | VNull | VObj _ => false
  | VBool b => b
  | VNum n => (0 <? n)%Z
  | VStr _ | VArr _ => converted_gt_zero v
  end.

(** The children of [<TableBody>] as they are rendered; [Throw] is a render
    that throws. *)
Definition tableBody (s : state) : completion table_body :=
  if loading s then Normal (Skeletons 5)
  else
    match get_prop (departments s) "length" with
    | Throw => Throw
    | Normal len =>
        if gt_zero len then
          match departments s with
          | VArr l =>
              match map_rows 0 l with
              | Throw => Throw
              | Normal rows => Normal (Rows rows)
              end
          | _ => Throw   (* departments.map is not a function *)
          end
        else Normal (NoRows "No departments found")
    end.

End Table.

End DepartmentList.

(** ** The team-member screen: [TeamMemberList] *)

Module TeamMemberList.

(** [type TeamMemberForm] *)
Record TeamMemberForm : Type := {
  form_name : string;
  form_designation : string;
  form_about : string;
  form_departmentId : string
}.

(** [type TeamMember], the fields the handlers read. *)
Record TeamMember : Type := {
  member_id : string;
  member_name : string;
  member_designation : string;
  member_about : string;
  member_image : option string;
  member_departmentId : option string
}.

Record state : Type := State {
  teamMembers : list value;
  departments : value;
  loading : bool;
  isDialogOpen : bool;
  isDeleteDialogOpen : bool;
  isEdit : bool;
  currentMemberId : option string;
  form_values : TeamMemberForm;
  memberImageLink : option string;
  isUploading : bool
}.

Definition blank : TeamMemberForm :=
  {| form_name := ""; form_designation := ""; form_about := "";
     form_departmentId := "" |}.

Definition initial : state :=
  State [] (VArr []) false false false false None blank None false.

Definition setTeamMembers (l : list value) : M state unit :=
  update (fun s => State l (departments s) (loading s) (isDialogOpen s)
                         (isDeleteDialogOpen s) (isEdit s) (currentMemberId s)
                         (form_values s) (memberImageLink s) (isUploading s)).
Definition setDepartments (v : value) : M state unit :=
  update (fun s => State (teamMembers s) v (loading s) (isDialogOpen s)
                         (isDeleteDialogOpen s) (isEdit s) (currentMemberId s)
                         (form_values s) (memberImageLink s) (isUploading s)).
Definition setLoading (b : bool) : M state unit :=
  update (fun s => State (teamMembers s) (departments s) b (isDialogOpen s)
                         (isDeleteDialogOpen s) (isEdit s) (currentMemberId s)
                         (form_values s) (memberImageLink s) (isUploading s)).
Definition setIsDialogOpen (b : bool) : M state unit :=
  update (fun s => State (teamMembers s) (departments s) (loading s) b
                         (isDeleteDialogOpen s) (isEdit s) (currentMemberId s)
                         (form_values s) (memberImageLink s) (isUploading s)).
Definition setIsDeleteDialogOpen (b : bool) : M state unit :=
  update (fun s => State (teamMembers s) (departments s) (loading s)
                         (isDialogOpen s) b (isEdit s) (currentMemberId s)
                         (form_values s) (memberImageLink s) (isUploading s)).
Definition setIsEdit (b : bool) : M state unit :=
  update (fun s => State (teamMembers s) (departments s) (loading s)
                         (isDialogOpen s) (isDeleteDialogOpen s) b
                         (currentMemberId s) (form_values s)
                         (memberImageLink s) (isUploading s)).
Definition setCurrentMemberId (id : option string) : M state unit :=
  update (fun s => State (teamMembers s) (departments s) (loading s)
                         (isDialogOpen s) (isDeleteDialogOpen s) (isEdit s) id
                         (form_values s) (memberImageLink s) (isUploading s)).
Definition reset (f : TeamMemberForm) : M state unit :=
  update (fun s => State (teamMembers s) (departments s) (loading s)
                         (isDialogOpen s) (isDeleteDialogOpen s) (isEdit s)
                         (currentMemberId s) f (memberImageLink s)
                         (isUploading s)).
Definition setMemberImageLink (link : option string) : M state unit :=
  update (fun s => State (teamMembers s) (departments s) (loading s)
                         (isDialogOpen s) (isDeleteDialogOpen s) (isEdit s)
                         (currentMemberId s) (form_values s) link
                         (isUploading s)).
Definition setIsUploading (b : bool) : M state unit :=
  update (fun s => State (teamMembers s) (departments s) (loading s)
                         (isDialogOpen s) (isDeleteDialogOpen s) (isEdit s)
                         (currentMemberId s) (form_values s)
                         (memberImageLink s) b).

(** [{ ...data }] *)
Definition form_json (data : TeamMemberForm) : list (string * value) :=
  [("name", VStr (form_name data));
   ("designation", VStr (form_designation data));
   ("about", VStr (form_about data));
   ("departmentId", VStr (form_departmentId data))].

(** The payload of a submission:
    [const payload = { ...data }; if (memberImageLink) payload.image = memberImageLink;] *)
Definition submit_payload (link : option string) (data : TeamMemberForm)
  : list (string * value) :=
  let payload := form_json data in
  match link with
  | Some l => if truthy (VStr l) then set_prop "image" (VStr l) payload
              else payload
  | None => payload
  end.

(** The loop of [fetchTeamMembers]:
    [keys.forEach((deptId) => { flatArray.push(...grouped[deptId]); })] *)
Fixpoint forEach_push (grouped : value) (keys : list string)
  (flatArray : list value) : completion (list value) :=
  match keys with
  | [] => Normal flatArray
  | deptId :: keys' =>
      match get_prop grouped deptId with
      | Throw => Throw
      | Normal group =>
          match spread group with
          | Throw => Throw
          | Normal members => forEach_push grouped keys' (flatArray ++ members)
          end
      end
  end.

(** "Convert grouped data to flat array" *)
Definition flatten (grouped : value) : completion (list value) :=
  match Object_keys grouped with
  | Throw => Throw
  | Normal keys => forEach_push grouped keys []
  end.

(** What the image upload comes back with. *)
Inductive upload_outcome : Type :=
  | UploadRejected
  | Uploaded (imageUrl : string).

(** The props of the submit button that decide whether it can be pressed. *)
Record button : Type := {
  btn_type : string;
  btn_disabled : bool;
  btn_label : string
}.

Definition submit_button (s : state) : button :=
  {| btn_type := "submit";
     btn_disabled := isUploading s;
     btn_label := if isEdit s then "Update" else "Add" |}.

Section Handlers.

Variable API_BASE_URL : string.

Definition fetchDepartments (o : fetch_outcome) : M state unit :=
  try_catch
    (res <- fetch (GET (API_BASE_URL +:+ "/department")) o ;;
     (if negb (res_ok res) then throw else ret tt) ;;
     data <- res_json res ;;
     d <- eval (get_prop data "data") ;;
     setDepartments d)
    (toast_error (VStr "Failed to load departments")).

Definition fetchTeamMembers (o : fetch_outcome) : M state unit :=
  try_finally
    (try_catch
       (setLoading true ;;
        res <- fetch (GET (API_BASE_URL +:+ "/team")) o ;;
        (if negb (res_ok res) then throw else ret tt) ;;
        data <- res_json res ;;
        grouped <- eval (get_prop data "data") ;;
        flatArray <- eval (flatten grouped) ;;
        setTeamMembers flatArray)
       (toast_error (VStr "Failed to load team members")))
    (setLoading false).

Definition openCreateDialog : M state unit :=
  setIsEdit false ;;
  setCurrentMemberId None ;;
  reset blank ;;
  setMemberImageLink None ;;
  setIsDialogOpen true.

Definition openEditDialog (member : TeamMember) : M state unit :=
  setIsEdit true ;;
  setCurrentMemberId (Some (member_id member)) ;;
  reset {| form_name := member_name member;
           form_designation := member_designation member;
           form_about := member_about member;
           form_departmentId := default "" (member_departmentId member) |} ;;
  setMemberImageLink (member_image member) ;;
  setIsDialogOpen true.

(** [handleImageChange] up to its [await]: [true] when an upload started. *)
Definition handleImageChange_begin (file : option File) : M state bool :=
  match file with
  | None => ret false
  | Some f =>
      setIsUploading true ;;
      setMemberImageLink None ;;
      emit (Upload f) ;;
      ret true
  end.

(** [handleImageChange] from the moment the upload settles. *)
Definition handleImageChange_resume (o : upload_outcome) : M state unit :=
  try_finally
    (try_catch
       (imageUrl <- match o with
                    | UploadRejected => throw
                    | Uploaded url => ret url
                    end ;;
        setMemberImageLink (Some imageUrl) ;;
        toast_success (VStr "Image uploaded successfully"))
       (toast_error (VStr "Image upload failed")))
    (setIsUploading false).

Definition handleImageChange (file : option File) (o : upload_outcome)
  : M state unit :=
  started <- handleImageChange_begin file ;;
  if started : bool then handleImageChange_resume o else ret tt.

Definition submit_request (s : state) (data : TeamMemberForm) : request :=
  let url := if isEdit s
             then API_BASE_URL +:+ "/team/" +:+ template_of (currentMemberId s)
             else API_BASE_URL +:+ "/team" in
  let method := if isEdit s then "PATCH" else "POST" in
  Request method url false true true
          (Some (VObj (submit_payload (memberImageLink s) data))).

Definition onSubmit (data : TeamMemberForm) (o refetch : fetch_outcome)
  : M state unit :=
  s <- read ;;
  res <- fetch (submit_request s data) o ;;
  resJson <- res_json res ;;
  if res_ok res then
    (toast_success
       (VStr (if isEdit s then "Team member updated successfully"
              else "Team member added successfully")) ;;
     setIsDialogOpen false ;;
     detached (fetchTeamMembers refetch))
  else
    toast_error (js_or (opt_chain resJson "message")
                       (VStr "Something went wrong")).

Definition deleteTeamMember (id : string) (o refetch : fetch_outcome)
  : M state unit :=
  res <- fetch (Request "DELETE" (API_BASE_URL +:+ "/team/" +:+ id)
                        false false true None) o ;;
  data <- res_json res ;;
  if res_ok res then
    (toast_success (js_or (opt_chain data "message")
                          (VStr "Team member deleted!")) ;;
     detached (fetchTeamMembers refetch))
  else
    toast_error (js_or (opt_chain data "message") (VStr "Delete failed")).

(** The user activates the submit control of the form: a disabled submit
    button submits nothing, an enabled one runs [handleSubmit(onSubmit)]. *)
Definition press_submit (data : TeamMemberForm) (o refetch : fetch_outcome)
  : M state unit :=
  s <- read ;;
  if btn_disabled (submit_button s) then ret tt
  else onSubmit data o refetch.

Definition onClick_row_delete (member : TeamMember) : M state unit :=
  setCurrentMemberId (Some (member_id member)) ;;
  setIsDeleteDialogOpen true.

Definition onClick_cancel : M state unit :=
  setIsDeleteDialogOpen false.

Definition onClick_delete (o refetch : fetch_outcome) : M state unit :=
  s <- read ;;
  match currentMemberId s with
  | Some id =>
      if truthy (VStr id) then detached (deleteTeamMember id o refetch)
      else ret tt
  | None => ret tt
  end ;;
  setIsDeleteDialogOpen false.

(** The two list fetches cut at their [await]: up to it the request is
    sent, from it on the answer is handled. *)
Definition fetchDepartments_begin : M state unit :=
  emit (Fetch (GET (API_BASE_URL +:+ "/department"))).

Definition fetchDepartments_resume (o : fetch_outcome) : M state unit :=
  try_catch
    (res <- settle o ;;
     (if negb (res_ok res) then throw else ret tt) ;;
     data <- res_json res ;;
     d <- eval (get_prop data "data") ;;
     setDepartments d)
    (toast_error (VStr "Failed to load departments")).

Definition fetchTeamMembers_begin : M state unit :=
  setLoading true ;;
  emit (Fetch (GET (API_BASE_URL +:+ "/team"))).

Definition fetchTeamMembers_resume (o : fetch_outcome) : M state unit :=
  try_finally
    (try_catch
       (res <- settle o ;;
        (if negb (res_ok res) then throw else ret tt) ;;
        data <- res_json res ;;
        grouped <- eval (get_prop data "data") ;;
        flatArray <- eval (flatten grouped) ;;
        setTeamMembers flatArray)
       (toast_error (VStr "Failed to load team members")))
    (setLoading false).

(** [useEffect(() => { fetchDepartments(); fetchTeamMembers(); }, [])]:
    both requests are sent before any answer is handled, and the answers
    are handled in the order they arrive, the members' first when
    [team_first]. *)
Definition mount (o_departments o_team : fetch_outcome) (team_first : bool)
  : M state unit :=
  fetchDepartments_begin ;;
  fetchTeamMembers_begin ;;
  if team_first then
    (detached (fetchTeamMembers_resume o_team) ;;
     detached (fetchDepartments_resume o_departments))
  else
    (detached (fetchDepartments_resume o_departments) ;;
     detached (fetchTeamMembers_resume o_team)).

End Handlers.

(** *** The table *)

Record row : Type := {
  row_key : value;                      (* key={member.id} *)
  row_number : Z;                       (* {index + 1} *)
  row_image : option (value * value);   (* src and alt of the <img>, [None]
                                           for the "NoImg" placeholder *)
  row_name : value;                     (* {member.name} *)
  row_designation : value;              (* {member.designation} *)
  row_department : option value;        (* {member.department?.name || <span>—</span>} *)
  row_about : value                     (* {member.about} *)
}.

Inductive table_body : Type :=
  | Skeletons (n : nat)
  | Rows (rows : list row)
  | NoRows (message : string).

Section Table.

(** [getFullImageUrl] of [@/lib/getFullImageUrl], which turns a stored
    reference into the address of the image, or throws. *)
Variable getFullImageUrl : value -> completion value.

(** A row as React renders it: reading a field of a [null] or [undefined]
    member throws, and so do a plain object among the children of a cell
    and [getFullImageUrl] when it does. *)
Definition table_row (index : nat) (member : value) : completion row :=
  match get_prop member "id", get_prop member "image",
        get_prop member "name", get_prop member "designation" with
  | Normal id, Normal image, Normal name, Normal designation =>
      match get_prop member "department", get_prop member "about" with
      | Normal department, Normal about =>
          let shown := opt_chain department "name" in
          match (if truthy image
                 then match getFullImageUrl image with
                      | Normal src => Normal (Some (src, name))
                      | Throw => Throw
                      end
                 else Normal None) with
          | Throw => Throw
          | Normal picture =>
              if renderable name && renderable designation
                 && (negb (truthy shown) || renderable shown)
                 && renderable about
              then
                Normal {| row_key := id;
                          row_number := Z.of_nat index + 1;
                          row_image := picture;
                          row_name := name;
                          row_designation := designation;
                          row_department :=
                            if truthy shown then Some shown else None;
                          row_about := about |}
              else Throw
          end
      | _, _ => Throw
      end
  | _, _, _, _ => Throw
  end.

(** [teamMembers.map((member, index) => ...)] from [index] on. *)
Fixpoint map_rows (index : nat) (l : list value) : completion (list row) :=
  match l with
  | [] => Normal []
  | member :: l' =>
      match table_row index member with
      | Throw => Throw
      | Normal r =>
          match map_rows (S index) l' with
          | Throw => Throw
          | Normal rs => Normal (r :: rs)
          end
      end
  end.

Definition tableBody (s : state) : completion table_body :=
  if loading s then Normal (Skeletons 5)
  else if (0 <? length (teamMembers s))%nat then
    match map_rows 0 (teamMembers s) with
    | Throw => Throw
    | Normal rows => Normal (Rows rows)
    end
  else Normal (NoRows "No team members found").

End Table.

End TeamMemberList.

(** ** The editor toolbar configuration: [createQuillModules] *)

Module QuillModules.

(** The editor is the third-party rich-text component; the handlers use
    this much of its interface. *)
Class Editor (E : Type) : Type := {
  setText : string -> E -> E;
  setSelection : nat -> nat -> E -> E;
  getText : E -> string;
  getSelection : E -> option (nat * nat)
}.

(** The line break every document of the editor ends with. *)
Definition line_break : string := String (Ascii.ascii_of_nat 10) EmptyString.

Fixpoint ends_with_line_break (s : string) : bool :=
  match s with
  | EmptyString => false
  | String c EmptyString => Ascii.eqb c (Ascii.ascii_of_nat 10)
  | String _ s' => ends_with_line_break s'
  end.

(** The text a document holds after [setText(s)]: [s], closed by a line
    break when it does not end with one. *)
Definition closed_text (s : string) : string :=
  if ends_with_line_break s then s else s +:+ line_break.

(** What the editor documents of the calls the [clear] handler makes:
    [setText] replaces the document and keeps it closed by a line break,
    [setSelection] leaves the document alone, and the selection placed at
    the start of the document is the one read back. *)
Class EditorLaws (E : Type) `{Editor E} : Prop := {
  getText_setText : forall s e, getText (setText s e) = closed_text s;
  getText_setSelection : forall i n e, getText (setSelection i n e) = getText e;
  getSelection_setSelection_start :
    forall e, getSelection (setSelection 0 0 e) = Some (0, 0)
}.

(** An entry of [toolbar.container]. *)
Inductive toolbar_item : Type :=
  | Button (name : string)
  | Header (levels : list (option nat))
  | ListOf (kind : string).

Definition container : list (list toolbar_item) :=
  [ [Header [Some 1; Some 2; Some 3; None]];
    [Button "bold"; Button "italic"; Button "underline"];
    [ListOf "ordered"; ListOf "bullet"];
    [Button "link"; Button "image"];
    [Button "clean"];
    [Button "clear"] ].

Section Handlers.

Context {E : Type} `{Editor E}.

(** [quillImageHandler] of [./quillImageHandle], which the [image] handler
    hands the editor to. *)
Variable quillImageHandler : E -> E.

(** [quillRef?.current], with the editor [getEditor()] returns when the
    component is mounted. *)
Definition quillRef : Type := option E.

Definition image (ref : quillRef) : quillRef :=
  match ref with
  | None => None
  | Some editor => Some (quillImageHandler editor)
  end.

Definition clear (ref : quillRef) : quillRef :=
  match ref with
  | None => None
  | Some editor =>
      let editor := setText "" editor in
      let editor := setSelection 0 0 editor in
      Some editor
  end.

(** [toolbar.handlers] *)
Definition handlers : list (string * (quillRef -> quillRef)) :=
  [("image", image); ("clear", clear)].

(** The toolbar runs the custom handler registered for a button. *)
Definition invoke (name : string) (ref : quillRef) : option quillRef :=
  (fun found => found.2.2 ref)
    <$> list_find (fun entry => entry.1 = name) handlers.

End Handlers.

(** An editor reduced to what the handlers touch: the text of the document
    and the selection, as an index and a length kept within the document. *)
Record plain_editor : Type := {
  text : string;
  selection : option (nat * nat)
}.

#[global] Instance plain_editor_Editor : Editor plain_editor := {
  setText s e := {| text := closed_text s; selection := selection e |};
  setSelection i n e :=
    let last := String.length (text e) - 1 in
    {| text := text e;
       selection := Some (i `min` last, n `min` (last - i `min` last)) |};
  getText := text;
  getSelection := selection
}.

End QuillModules.

(** ** Notions used in the statements *)

(** The number of times [m] occurs in [l]. *)
Definition occurrences (m : value) (l : list value) : nat :=
  length (filter (fun x => x = m) l).

(** The body the team endpoint answers with: under each department
    identifier, the array of its members. *)
Definition grouped_response (groups : list (string * list value)) : value :=
  VObj ((fun g => (g.1, VArr g.2)) <$> groups).

(** The state, the log and the completion a handler ends with. *)
Definition final {S A} (r : completion A * world S) : S := ui r.2.
Definition trace {S A} (r : completion A * world S) : list event := log r.2.
Definition outcome {S A} (r : completion A * world S) : completion A := r.1.

(** A handler stops on a rejected promise, having notified nobody and
    left the state [s] it started in. *)
Definition fails_silently {S} (s : S) (r : completion unit * world S) : Prop :=
  outcome r = Throw /\ filter is_toast (trace r) = [] /\ final r = s.

(** [undefined] and [null], the values no property can be read from. *)
Definition nullish (v : value) : bool :=
  match v with
  | VUndef | VNull => true
  | _ => false
  end.

(** A department entry React renders a row for: it is neither [null] nor
    [undefined], and no plain object is among the children of its cells
    (the name, the description when truthy, the member count). *)
Definition DepartmentList_row_renders (d : value) : bool :=
  negb (nullish d)
  && renderable (opt_chain d "name")
  && (negb (truthy (opt_chain d "description"))
      || renderable (opt_chain d "description"))
  && renderable (js_or (opt_chain (opt_chain d "teams") "length") (VNum 0)).


(** * Properties *)

(** ** Flattening the grouped team-member response *)

Lemma own_prop_NoDup k v ps :
  NoDup ps.*1 -> (k, v) ∈ ps -> own_prop k ps = Some v.
Proof.
  induction ps as [|[k' v'] ps IH]; simpl; intros Hnd Hin.
  - by apply elem_of_nil in Hin.
  - apply NoDup_cons in Hnd as [Hk' Hnd].
    apply elem_of_cons in Hin as [Heq|Hin].
    + injection Heq as -> ->. by rewrite String.eqb_refl.
    + destruct (String.eqb_spec k k') as [->|_]; [|by apply IH].
      exfalso. apply Hk'. apply list_elem_of_fmap. by exists (k', v).
Qed.

(** An object built one assignment at a time never holds a key twice. *)
Lemma set_prop_NoDup k v ps : NoDup ps.*1 -> NoDup (set_prop k v ps).*1.
Proof.
  induction ps as [|[k' v'] ps IH]; simpl; intros Hnd.
  - apply NoDup_singleton.
  - apply NoDup_cons in Hnd as [Hk' Hnd].
    destruct (String.eqb_spec k k') as [->|Hne]; simpl.
    + by apply NoDup_cons.
    + apply NoDup_cons. split; [|by apply IH].
      intros Hin. apply Hk'. clear -Hin Hne.
      induction ps as [|[k2 v2] ps IH]; simpl in *.
      * apply list_elem_of_singleton in Hin. congruence.
      * destruct (String.eqb_spec k k2) as [->|_]; simpl in *.
        -- exact Hin.
        -- apply elem_of_cons in Hin as [->|Hin];
             [apply list_elem_of_here|apply list_elem_of_further, IH, Hin].
Qed.

Lemma forEach_push_groups all (gs : list (string * list value)) acc :
  (forall g, g ∈ gs -> own_prop g.1 all = Some (VArr g.2)) ->
  TeamMemberList.forEach_push (VObj all) gs.*1 acc
  = Normal (acc ++ concat gs.*2).
Proof.
  revert acc. induction gs as [|g gs IH]; simpl; intros acc Hall.
  - by rewrite app_nil_r.
  - rewrite (Hall g) by apply list_elem_of_here. simpl.
    rewrite IH, app_assoc; [done|].
    intros g' Hg'. apply Hall. by apply list_elem_of_further.
Qed.

Lemma flatten_grouped_response groups :
  NoDup groups.*1 ->
  TeamMemberList.flatten (grouped_response groups) = Normal (concat groups.*2).
Proof.
  intros Hnd. unfold TeamMemberList.flatten, grouped_response. simpl.
  rewrite <- list_fmap_compose.
  replace (fst ∘ (fun g : string * list value => (g.1, VArr g.2)) <$> groups)
    with (groups.*1) by (apply list_fmap_ext; by intros ? []).
  apply (forEach_push_groups _ groups []).
  intros g Hg. apply own_prop_NoDup.
  - rewrite <- list_fmap_compose.
    replace (fst ∘ (fun g : string * list value => (g.1, VArr g.2)) <$> groups)
      with (groups.*1) by (apply list_fmap_ext; by intros ? []).
    done.
  - apply list_elem_of_fmap. by exists g.
Qed.

Lemma occurrences_app m l1 l2 :
  occurrences m (l1 ++ l2) = occurrences m l1 + occurrences m l2.
Proof. unfold occurrences. by rewrite filter_app, length_app. Qed.

Lemma occurrences_concat m (ls : list (list value)) :
  occurrences m (concat ls) = sum_list (occurrences m <$> ls).
Proof.
  induction ls as [|l ls IH]; simpl; [done|].
  by rewrite occurrences_app, IH.
Qed.

Lemma occurrences_not_elem m l : m ∉ l -> occurrences m l = 0.
Proof.
  unfold occurrences. induction l as [|x l IH]; intros Hm; [done|].
  apply not_elem_of_cons in Hm as [Hne Hm].
  rewrite filter_cons. destruct (decide (x = m)); [congruence|by apply IH].
Qed.

Lemma occurrences_NoDup m l : NoDup l -> m ∈ l -> occurrences m l = 1.
Proof.
  induction l as [|x l IH]; intros Hnd Hm.
  - by apply elem_of_nil in Hm.
  - apply NoDup_cons in Hnd as [Hx Hnd].
    change (x :: l) with ([x] ++ l). rewrite occurrences_app.
    unfold occurrences at 1. rewrite filter_cons, filter_nil.
    apply elem_of_cons in Hm as [->|Hm].
    + rewrite decide_True by done. by rewrite occurrences_not_elem.
    + rewrite decide_False by (intros ->; done). by rewrite IH.
Qed.

(** Unfolds a handler down to the state and log it leaves. *)
Ltac exec :=
  unfold final, trace, outcome, run, try_finally, try_catch, detached, fetch,
    res_json, toast_success, toast_error, eval, emit, update, read, throw,
    bind, ret;
  simpl.

(** C1. When the team endpoint answers OK with the members grouped by
    department identifier, [fetchTeamMembers] stores the concatenation of
    the groups, taken in key-iteration order with each group in the order
    received.  Every member is therefore stored as many times as it occurs
    across the groups, and exactly once when no member occurs twice in the
    groups, however the members are divided among the departments. *)
Theorem fetchTeamMembers_flattens_groups
  (api : string) (s : TeamMemberList.state) (status : Z) (data : value)
  (groups : list (string * list value)) :
  res_ok (Response status (Some data)) = true ->
  get_prop data "data" = Normal (grouped_response groups) ->
  NoDup groups.*1 ->
  let flat :=
    TeamMemberList.teamMembers
      (final (run (TeamMemberList.fetchTeamMembers
                     api (Responded status (Some data))) s)) in
  TeamMemberList.flatten (grouped_response groups) = Normal flat
  /\ flat = concat groups.*2
  /\ (forall m, occurrences m flat = sum_list (occurrences m <$> groups.*2))
  /\ (NoDup (concat groups.*2) ->
      forall m, m ∈ concat groups.*2 -> occurrences m flat = 1).
Proof.
  intros Hok Hdata Hnd.
  pose proof (flatten_grouped_response groups Hnd) as Hflat.
  assert (TeamMemberList.teamMembers
            (final (run (TeamMemberList.fetchTeamMembers
                           api (Responded status (Some data))) s))
          = concat groups.*2) as ->.
  { unfold TeamMemberList.fetchTeamMembers. exec.
    rewrite Hok. simpl. rewrite Hdata, Hflat. reflexivity. }
  simpl. repeat split.
  - exact Hflat.
  - intros m. apply occurrences_concat.
  - intros Hdisj m Hm. by apply occurrences_NoDup.
Qed.

Lemma fetchTeamMembers_flattens_groups_witness :
  let ana := VObj [("id", VStr "m1"); ("name", VStr "Ana")] in
  let bo := VObj [("id", VStr "m2"); ("name", VStr "Bo")] in
  let cy := VObj [("id", VStr "m3"); ("name", VStr "Cy")] in
  let groups := [("d2", [ana; bo]); ("d1", [cy])] in
  let data := VObj [("data", grouped_response groups)] in
  res_ok (Response 200 (Some data)) = true
  /\ get_prop data "data" = Normal (grouped_response groups)
  /\ NoDup groups.*1
  /\ TeamMemberList.teamMembers
       (final (run (TeamMemberList.fetchTeamMembers
                      "https://api.test" (Responded 200 (Some data)))
                   TeamMemberList.initial))
     = [ana; bo; cy].
Proof.
  intros ana bo cy groups data.
  assert (NoDup groups.*1) as Hnd.
  { apply (bool_decide_unpack _). vm_compute. exact I. }
  split; [reflexivity|]. split; [reflexivity|]. split; [exact Hnd|].
  destruct (fetchTeamMembers_flattens_groups
              "https://api.test" TeamMemberList.initial 200 data groups
              eq_refl eq_refl Hnd) as (_ & Hflat & _).
  exact Hflat.
Defined.

(** ** Transport failures of the mutating requests *)

Lemma transport_failure_inv o :
  transport_failure o = true ->
  o = Rejected \/ exists status, o = Responded status None.
Proof.
  destruct o as [|status body]; simpl; [by left|].
  intros [_ Hbody%bool_decide_eq_true]%andb_prop. right. exists status.
  by rewrite Hbody.
Qed.

(** C2, as the code has it.  When the transport of a submission or of a
    delete request fails (the fetch rejects, or the status is not OK and the
    body does not parse), the handler stops at the failing [await]: its
    promise rejects, the state is as it was, and after the request nothing
    is notified, on both screens.  The generic fallback texts are only
    reached with a body that parsed. *)
Theorem mutation_transport_failure_is_silent
  (api : string) (sd : DepartmentList.state) (st : TeamMemberList.state)
  (dept : DepartmentList.DepartmentForm)
  (member : TeamMemberList.TeamMemberForm)
  (id : string) (o refetch : fetch_outcome) :
  transport_failure o = true ->
  fails_silently sd (run (DepartmentList.onSubmit api dept o refetch) sd)
  /\ fails_silently sd (run (DepartmentList.deleteDepartment api id o refetch) sd)
  /\ fails_silently st (run (TeamMemberList.onSubmit api member o refetch) st)
  /\ fails_silently st (run (TeamMemberList.deleteTeamMember api id o refetch) st).
Proof.
  intros [->|[status ->]]%transport_failure_inv;
    unfold fails_silently, DepartmentList.onSubmit,
      DepartmentList.deleteDepartment, TeamMemberList.onSubmit,
      TeamMemberList.deleteTeamMember;
    exec; repeat split; by destruct sd || by destruct st.
Qed.

Lemma mutation_transport_failure_is_silent_witness :
  transport_failure (Responded 502 None) = true
  /\ fails_silently DepartmentList.initial
       (run (DepartmentList.onSubmit
               "https://api.test"
               {| DepartmentList.form_name := "Guides";
                  DepartmentList.form_description := Some "" |}
               (Responded 502 None) Rejected)
            DepartmentList.initial).
Proof.
  split; [reflexivity|].
  destruct (mutation_transport_failure_is_silent
              "https://api.test" DepartmentList.initial TeamMemberList.initial
              {| DepartmentList.form_name := "Guides";
                 DepartmentList.form_description := Some "" |}
              TeamMemberList.blank "3" (Responded 502 None) Rejected eq_refl)
    as (Hsubmit & _).
  exact Hsubmit.
Defined.

(** ** The delete-confirmation dialog *)

(** C3, as stated, fails: after the trash button of department 3 and then
    Cancel, the identifier 3 is still recorded. *)
Lemma cancel_keeps_the_recorded_identifier :
  let row := {| DepartmentList.dept_id := "3";
                DepartmentList.dept_name := "Guides";
                DepartmentList.dept_description := None |} in
  let opened :=
    final (run (DepartmentList.onClick_row_delete row) DepartmentList.initial) in
  let cancelled := final (run DepartmentList.onClick_cancel opened) in
  DepartmentList.isDeleteDialogOpen opened = true
  /\ DepartmentList.currentDepartmentId opened = Some "3"
  /\ DepartmentList.currentDepartmentId cancelled = Some "3"
  /\ DepartmentList.currentDepartmentId cancelled <> None.
Proof. repeat split. discriminate. Qed.

(** C3, amended.  In every state, Cancel in the delete dialog issues no
    request and no notification, closes the dialog, and leaves every other
    state cell, the recorded target identifier included, as it was; on both
    screens. *)
Theorem cancel_closes_without_request
  (sd : DepartmentList.state) (st : TeamMemberList.state) :
  let rd := run DepartmentList.onClick_cancel sd in
  let rt := run TeamMemberList.onClick_cancel st in
  (outcome rd = Normal tt
   /\ trace rd = []
   /\ DepartmentList.isDeleteDialogOpen (final rd) = false
   /\ DepartmentList.currentDepartmentId (final rd)
      = DepartmentList.currentDepartmentId sd
   /\ final (run (DepartmentList.setIsDeleteDialogOpen
                    (DepartmentList.isDeleteDialogOpen sd)) (final rd)) = sd)
  /\ (outcome rt = Normal tt
      /\ trace rt = []
      /\ TeamMemberList.isDeleteDialogOpen (final rt) = false
      /\ TeamMemberList.currentMemberId (final rt)
         = TeamMemberList.currentMemberId st
      /\ final (run (TeamMemberList.setIsDeleteDialogOpen
                       (TeamMemberList.isDeleteDialogOpen st)) (final rt)) = st).
Proof. destruct sd, st. repeat split. Qed.

(** C10. When Delete is pressed in the confirmation dialog while no target
    identifier is recorded, no request is issued (nothing at all is logged)
    and the dialog closes all the same, the rest of the state staying as it
    was; on both screens. *)
Theorem confirm_without_target_issues_no_request
  (api : string) (sd : DepartmentList.state) (st : TeamMemberList.state)
  (o refetch : fetch_outcome) :
  DepartmentList.currentDepartmentId sd = None ->
  TeamMemberList.currentMemberId st = None ->
  let rd := run (DepartmentList.onClick_delete api o refetch) sd in
  let rt := run (TeamMemberList.onClick_delete api o refetch) st in
  (outcome rd = Normal tt
   /\ trace rd = []
   /\ DepartmentList.isDeleteDialogOpen (final rd) = false
   /\ rd = run (DepartmentList.setIsDeleteDialogOpen false) sd)
  /\ (outcome rt = Normal tt
      /\ trace rt = []
      /\ TeamMemberList.isDeleteDialogOpen (final rt) = false
      /\ rt = run (TeamMemberList.setIsDeleteDialogOpen false) st).
Proof.
  intros Hd Ht. cbv zeta.
  unfold DepartmentList.onClick_delete, TeamMemberList.onClick_delete. exec.
  rewrite Hd, Ht. repeat split.
Qed.

Lemma confirm_without_target_issues_no_request_witness :
  let sd := final (run (DepartmentList.setIsDeleteDialogOpen true)
                       DepartmentList.initial) in
  let st := final (run (TeamMemberList.setIsDeleteDialogOpen true)
                       TeamMemberList.initial) in
  let answer := Responded 200 (Some VNull) in
  DepartmentList.currentDepartmentId sd = None
  /\ TeamMemberList.currentMemberId st = None
  /\ trace (run (DepartmentList.onClick_delete "https://api.test" answer Rejected)
                sd) = []
  /\ TeamMemberList.isDeleteDialogOpen
       (final (run (TeamMemberList.onClick_delete
                      "https://api.test" answer Rejected) st)) = false.
Proof.
  intros sd st answer.
  split; [reflexivity|]. split; [reflexivity|].
  destruct (confirm_without_target_issues_no_request
              "https://api.test" sd st answer Rejected eq_refl eq_refl)
    as ((_ & Hd & _) & (_ & _ & Ht & _)).
  split; [exact Hd | exact Ht].
Defined.

(** ** The list fetches *)

(** Splits on what the handler under the goal branches on. *)
Ltac branches :=
  repeat match goal with
         | |- context [match ?x with _ => _ end] => is_var x; destruct x; simpl
         | |- context [res_ok ?r] => destruct (res_ok r) eqn:?; simpl
         | |- context [get_prop ?d ?k] => destruct (get_prop d k) eqn:?; simpl
         | |- context [TeamMemberList.flatten ?g] =>
             destruct (TeamMemberList.flatten g) eqn:?; simpl
         end.

(** A list fetch appends to the log: the [GET] of the collection, and after
    it at most the notification of its failure. *)
Lemma DepartmentList_fetchDepartments_log api o w :
  exists rest,
    log (DepartmentList.fetchDepartments api o w).2
    = log w ++ Fetch (GET (api +:+ "/department")) :: rest
    /\ (rest = [] \/ rest = [ToastError (VStr "Failed to load departments")]).
Proof.
  unfold DepartmentList.fetchDepartments. exec. branches;
    rewrite <- ?app_assoc; simpl; eexists; (split; [reflexivity|]); auto.
Qed.

Lemma TeamMemberList_fetchTeamMembers_log api o w :
  exists rest,
    log (TeamMemberList.fetchTeamMembers api o w).2
    = log w ++ Fetch (GET (api +:+ "/team")) :: rest
    /\ (rest = [] \/ rest = [ToastError (VStr "Failed to load team members")]).
Proof.
  unfold TeamMemberList.fetchTeamMembers. exec. branches;
    rewrite <- ?app_assoc; simpl; eexists; (split; [reflexivity|]); auto.
Qed.

(** C5. When a list fetch fails (the fetch rejects, the status is not OK, or
    the body does not parse), the list in memory is the one from before: the
    state ends as it started, the loading flag lowered.  One error
    notification is shown.  This holds for the department list, for the
    team-member list and for the department selector of the team screen. *)
Theorem failed_list_fetch_keeps_list
  (api : string) (sd : DepartmentList.state) (st : TeamMemberList.state)
  (o : fetch_outcome) :
  list_fetch_failure o = true ->
  let rd := run (DepartmentList.fetchDepartments api o) sd in
  let rt := run (TeamMemberList.fetchTeamMembers api o) st in
  let rs := run (TeamMemberList.fetchDepartments api o) st in
  (DepartmentList.departments (final rd) = DepartmentList.departments sd
   /\ final rd = final (run (DepartmentList.setLoading false) sd)
   /\ filter is_toast (trace rd)
      = [ToastError (VStr "Failed to load departments")])
  /\ (TeamMemberList.teamMembers (final rt) = TeamMemberList.teamMembers st
      /\ final rt = final (run (TeamMemberList.setLoading false) st)
      /\ filter is_toast (trace rt)
         = [ToastError (VStr "Failed to load team members")])
  /\ (TeamMemberList.departments (final rs) = TeamMemberList.departments st
      /\ final rs = st
      /\ filter is_toast (trace rs)
         = [ToastError (VStr "Failed to load departments")]).
Proof.
  intros Hfail. cbv zeta.
  unfold DepartmentList.fetchDepartments, TeamMemberList.fetchTeamMembers,
    TeamMemberList.fetchDepartments.
  destruct o as [|status body]; simpl in Hfail.
  - exec. destruct st. repeat split.
  - exec. destruct (res_ok _); simpl.
    + destruct body as [data|]; [discriminate|]. simpl.
      destruct st. repeat split.
    + destruct st. repeat split.
Qed.

Lemma failed_list_fetch_keeps_list_witness :
  let rows := VArr [VObj [("id", VStr "1"); ("name", VStr "Engineering")]] in
  let sd := final (run (DepartmentList.setDepartments rows)
                       DepartmentList.initial) in
  let o := Responded 500 (Some (VObj [("message", VStr "boom")])) in
  list_fetch_failure o = true
  /\ DepartmentList.departments
       (final (run (DepartmentList.fetchDepartments "https://api.test" o) sd))
     = rows.
Proof.
  intros rows sd o. split; [reflexivity|].
  destruct (failed_list_fetch_keeps_list
              "https://api.test" sd TeamMemberList.initial o eq_refl)
    as ((Hkept & _) & _).
  exact Hkept.
Defined.

(** ** Submitting the form *)

(** A submission logs the request it built first; whatever request follows
    is the [GET] of the list fetch. *)
Lemma DepartmentList_onSubmit_trace api s data o refetch :
  exists rest,
    trace (run (DepartmentList.onSubmit api data o refetch) s)
    = Fetch (DepartmentList.submit_request api s data) :: rest
    /\ Forall (fun r => req_method r = "GET") (requests rest).
Proof.
  pose proof (DepartmentList_fetchDepartments_log api refetch) as Hlog.
  unfold DepartmentList.onSubmit.
  generalize dependent (DepartmentList.fetchDepartments api refetch).
  intros list_fetch Hlog. exec.
  destruct o as [|status [body|]]; simpl;
    try (eexists; split; [reflexivity|constructor]).
  destruct (res_ok _); simpl.
  - match goal with |- context [list_fetch ?w] =>
      destruct (Hlog w) as (evs & -> & Hrest) end.
    simpl. eexists; split; [reflexivity|].
    destruct Hrest as [->| ->]; by repeat constructor.
  - eexists; split; [reflexivity|constructor].
Qed.

Lemma TeamMemberList_onSubmit_trace api s data o refetch :
  exists rest,
    trace (run (TeamMemberList.onSubmit api data o refetch) s)
    = Fetch (TeamMemberList.submit_request api s data) :: rest
    /\ Forall (fun r => req_method r = "GET") (requests rest).
Proof.
  pose proof (TeamMemberList_fetchTeamMembers_log api refetch) as Hlog.
  unfold TeamMemberList.onSubmit.
  generalize dependent (TeamMemberList.fetchTeamMembers api refetch).
  intros list_fetch Hlog. exec.
  destruct o as [|status [body|]]; simpl;
    try (eexists; split; [reflexivity|constructor]).
  destruct (res_ok _); simpl.
  - match goal with |- context [list_fetch ?w] =>
      destruct (Hlog w) as (evs & -> & Hrest) end.
    simpl. eexists; split; [reflexivity|].
    destruct Hrest as [->| ->]; by repeat constructor.
  - eexists; split; [reflexivity|constructor].
Qed.



(** C6. The payload of every team-member submission has an [image] property
    exactly when a non-empty image reference is stored, and the property
    then holds that reference.  With no reference stored (or an empty one)
    the key is absent, reading it gives [undefined], and the payload is the
    form data as it is. *)
Theorem submit_payload_has_image_iff_stored
  (api : string) (s : TeamMemberList.state)
  (data : TeamMemberList.TeamMemberForm) (o refetch : fetch_outcome) :
  exists req payload rest,
    trace (run (TeamMemberList.onSubmit api data o refetch) s)
    = Fetch req :: rest
    /\ req_body req = Some (VObj payload)
    /\ has_prop "image" payload
       = truthy_ref (TeamMemberList.memberImageLink s)
    /\ own_prop "image" payload
       = (if truthy_ref (TeamMemberList.memberImageLink s)
          then VStr <$> TeamMemberList.memberImageLink s else None)
    /\ payload
       = TeamMemberList.form_json data
         ++ (if truthy_ref (TeamMemberList.memberImageLink s)
             then [("image", VStr (template_of (TeamMemberList.memberImageLink s)))]
             else []).
Proof.
  destruct (TeamMemberList_onSubmit_trace api s data o refetch)
    as (rest & Htrace & _).
  eexists _, _, rest. split; [exact Htrace|]. split; [reflexivity|].
  unfold TeamMemberList.submit_payload.
  destruct (TeamMemberList.memberImageLink s) as [link|]; simpl;
    [destruct (String.eqb link ""); simpl|]; repeat split.
Qed.

(** ** The image upload *)

(** Picking a file raises the uploading flag before the upload is awaited,
    and the flag is lowered again however the upload ends. *)
Lemma upload_flag_while_awaiting (s : TeamMemberList.state) (file : File)
  (o : TeamMemberList.upload_outcome) :
  let started := run (TeamMemberList.handleImageChange_begin (Some file)) s in
  outcome started = Normal true
  /\ TeamMemberList.isUploading (final started) = true
  /\ TeamMemberList.isUploading
       (final (run (TeamMemberList.handleImageChange (Some file) o) s)) = false.
Proof.
  unfold TeamMemberList.handleImageChange. exec.
  unfold TeamMemberList.handleImageChange_resume. exec.
  by destruct o.
Qed.

(** C7. In every state of the team-member form whose uploading flag is up,
    the submit button is rendered disabled, and activating the submit
    control does nothing: no request, no notification, no state change. *)
Theorem submit_disabled_while_uploading
  (api : string) (s : TeamMemberList.state)
  (data : TeamMemberList.TeamMemberForm) (o refetch : fetch_outcome) :
  TeamMemberList.isUploading s = true ->
  TeamMemberList.btn_type (TeamMemberList.submit_button s) = "submit"
  /\ TeamMemberList.btn_disabled (TeamMemberList.submit_button s) = true
  /\ run (TeamMemberList.press_submit api data o refetch) s
     = (Normal tt, World s []).
Proof.
  intros Hup. unfold TeamMemberList.press_submit. exec.
  by rewrite Hup.
Qed.

Lemma submit_disabled_while_uploading_witness :
  let photo := {| file_name := "guide.jpg" |} in
  let s := final (run (TeamMemberList.handleImageChange_begin (Some photo))
                      TeamMemberList.initial) in
  let data := {| TeamMemberList.form_name := "Ana";
                 TeamMemberList.form_designation := "Guide";
                 TeamMemberList.form_about := "Leads treks";
                 TeamMemberList.form_departmentId := "d1" |} in
  let created := Responded 201 (Some (VObj [("message", VStr "created")])) in
  TeamMemberList.isUploading s = true
  /\ TeamMemberList.btn_disabled (TeamMemberList.submit_button s) = true
  /\ trace (run (TeamMemberList.press_submit "https://api.test" data
                   created Rejected) s) = [].
Proof.
  intros photo s data created. split; [reflexivity|].
  destruct (submit_disabled_while_uploading
              "https://api.test" s data created Rejected eq_refl)
    as (_ & Hdisabled & Hrun).
  split; [exact Hdisabled|]. by rewrite Hrun.
Defined.

(** ** Deleting *)

(** C8, as the code has it.  A confirmed delete that succeeds with an OK
    status and no JSON body (a [204] without content, say) is followed by
    neither the success notification nor the refetch: [deleteDepartment]
    stops at [res.json()], its promise rejects, the log holds the delete
    request alone, and the list stays as it was while the dialog closes. *)
Theorem confirmed_delete_without_json_body_is_silent
  (api : string) (s : DepartmentList.state) (id : string) (status : Z)
  (refetch : fetch_outcome) :
  DepartmentList.currentDepartmentId s = Some id ->
  id <> "" ->
  res_ok (Response status None) = true ->
  let r := run (DepartmentList.onClick_delete
                  api (Responded status None) refetch) s in
  outcome (run (DepartmentList.deleteDepartment
                  api id (Responded status None) refetch) s) = Throw
  /\ trace r
     = [Fetch (Request "DELETE" (api +:+ "/department/" +:+ id)
                       false false true None)]
  /\ filter is_toast (trace r) = []
  /\ DepartmentList.departments (final r) = DepartmentList.departments s
  /\ DepartmentList.isDeleteDialogOpen (final r) = false.
Proof.
  intros Hid Hne%String.eqb_neq Hok. cbv zeta.
  unfold DepartmentList.onClick_delete, DepartmentList.deleteDepartment. exec.
  rewrite Hid. simpl. rewrite Hne. simpl. by repeat split.
Qed.

Lemma confirmed_delete_without_json_body_is_silent_witness :
  let row := {| DepartmentList.dept_id := "3";
                DepartmentList.dept_name := "Guides";
                DepartmentList.dept_description := None |} in
  let s := final (run (DepartmentList.onClick_row_delete row)
                      DepartmentList.initial) in
  let listing := Responded 200 (Some (VObj [("data", VArr [])])) in
  DepartmentList.currentDepartmentId s = Some "3"
  /\ "3" <> ""
  /\ res_ok (Response 204 None) = true
  /\ trace (run (DepartmentList.onClick_delete
                   "https://api.test" (Responded 204 None) listing) s)
     = [Fetch (Request "DELETE" "https://api.test/department/3"
                       false false true None)].
Proof.
  intros row s listing.
  assert ("3" <> "") as Hne by discriminate.
  split; [reflexivity|]. split; [exact Hne|]. split; [reflexivity|].
  destruct (confirmed_delete_without_json_body_is_silent
              "https://api.test" s "3" 204 listing eq_refl Hne eq_refl)
    as (_ & Htrace & _).
  exact Htrace.
Defined.

(** X19. For every confirmed department delete whose response body parses
    as JSON: the dialog closes; with an OK status the delete request is
    followed by the success notification, whose content is the body's
    [message] when that is truthy (for a text: non-empty) and the fixed text
    "Department deleted!" otherwise, and then by the [GET] that refetches
    the list, after which no further request is made; with any other status
    the delete request is followed by one error notification, the body's
    [message] when truthy and "Delete failed" otherwise, and by nothing
    else, so the list is not refetched. *)
Theorem confirmed_delete_notifies_then_refetches
  (api : string) (s : DepartmentList.state) (id : string) (status : Z)
  (body : value) (refetch : fetch_outcome) :
  DepartmentList.currentDepartmentId s = Some id ->
  id <> "" ->
  let r := run (DepartmentList.onClick_delete
                  api (Responded status (Some body)) refetch) s in
  let del := Request "DELETE" (api +:+ "/department/" +:+ id)
                     false false true None in
  let message := opt_chain body "message" in
  DepartmentList.isDeleteDialogOpen (final r) = false
  /\ (res_ok (Response status (Some body)) = true ->
      exists rest,
        trace r
        = Fetch del
          :: ToastSuccess (if truthy message then message
                           else VStr "Department deleted!")
          :: Fetch (GET (api +:+ "/department")) :: rest
        /\ requests rest = []
        /\ (forall text, message = VStr text -> text <> "" ->
            trace r !! 1 = Some (ToastSuccess (VStr text))))
  /\ (res_ok (Response status (Some body)) = false ->
      trace r
      = [Fetch del;
         ToastError (if truthy message then message else VStr "Delete failed")]
      /\ requests (trace r) = [del]
      /\ DepartmentList.departments (final r) = DepartmentList.departments s).
Proof.
  intros Hid Hne. cbv zeta.
  pose proof (DepartmentList_fetchDepartments_log api refetch) as Hlog.
  unfold DepartmentList.onClick_delete, DepartmentList.deleteDepartment.
  generalize dependent (DepartmentList.fetchDepartments api refetch).
  intros list_fetch Hlog. exec. rewrite Hid.
  apply String.eqb_neq in Hne. simpl. rewrite Hne. simpl.
  destruct (res_ok _); simpl.
  - split; [done|]. split; [|done]. intros _.
    match goal with |- context [list_fetch ?w] =>
      destruct (Hlog w) as (rest & -> & Hrest) end.
    simpl. unfold js_or. exists rest. split; [done|]. split.
    + by destruct Hrest as [->| ->].
    + intros text -> Htext. apply String.eqb_neq in Htext.
      simpl. by rewrite Htext.
  - split; [done|]. split; [done|]. intros _. unfold js_or. by repeat split.
Qed.

Lemma confirmed_delete_notifies_then_refetches_witness :
  let row := {| DepartmentList.dept_id := "3";
                DepartmentList.dept_name := "Guides";
                DepartmentList.dept_description := None |} in
  let s := final (run (DepartmentList.onClick_row_delete row)
                      DepartmentList.initial) in
  let answer := VObj [("message", VStr "Department deleted!")] in
  let listing := Responded 200 (Some (VObj [("data", VArr [])])) in
  DepartmentList.currentDepartmentId s = Some "3"
  /\ "3" <> ""
  /\ res_ok (Response 200 (Some answer)) = true
  /\ exists rest,
      trace (run (DepartmentList.onClick_delete
                    "https://api.test" (Responded 200 (Some answer)) listing) s)
      = Fetch (Request "DELETE" "https://api.test/department/3"
                       false false true None)
        :: ToastSuccess (VStr "Department deleted!")
        :: Fetch (GET "https://api.test/department") :: rest.
Proof.
  intros row s answer listing.
  assert ("3" <> "") as Hne by discriminate.
  split; [reflexivity|]. split; [exact Hne|]. split; [reflexivity|].
  destruct (confirmed_delete_notifies_then_refetches
              "https://api.test" s "3" 200 answer listing eq_refl Hne)
    as (_ & Hok & _).
  destruct (Hok eq_refl) as (rest & Htrace & _).
  exists rest. exact Htrace.
Defined.

(** ** The editor toolbar *)

Lemma plain_editor_laws : QuillModules.EditorLaws QuillModules.plain_editor.
Proof. by split. Qed.

(** C9, as stated, fails: the editor keeps every document closed by a line
    break, so after the [clear] handler the text of the document is that
    line break and not the empty text.  So it is for the document "Everest
    base camp, day 1", and no editor that keeps the laws ends with the
    empty text. *)
Lemma clear_leaves_the_closing_line_break :
  (let editor :=
     {| QuillModules.text :=
          "Everest base camp, day 1" +:+ QuillModules.line_break;
        QuillModules.selection := Some (7, 4) |} in
   exists cleared,
     QuillModules.invoke (fun e : QuillModules.plain_editor => e) "clear"
       (Some editor)
     = Some (Some cleared)
     /\ QuillModules.getText cleared = QuillModules.line_break
     /\ QuillModules.getText cleared <> "")
  /\ ~ (exists (E : Type) (editor_of : QuillModules.Editor E)
               (_ : QuillModules.EditorLaws E)
               (quillImageHandler : E -> E) (editor cleared : E),
          QuillModules.invoke quillImageHandler "clear" (Some editor)
          = Some (Some cleared)
          /\ QuillModules.getText cleared = "").
Proof.
  split.
  - eexists. split; [reflexivity|]. split; [reflexivity|]. discriminate.
  - intros (E & editor_of & laws & image & editor & cleared & Hrun & Htext).
    injection Hrun as <-.
    rewrite QuillModules.getText_setSelection, QuillModules.getText_setText
      in Htext.
    discriminate.
Qed.

(** C9, amended.  On a live editor, the handler the toolbar has under
    [clear] calls [setText('')] and then [setSelection(0, 0)].  Afterwards
    nothing of what the document held is left: whatever it held, its text
    is the one line break that closes every document of the editor (not the
    empty text), which is the text of a document set to the empty text; and
    the selection is at index 0 with length 0, the start of the document. *)
Theorem clear_handler_blanks_document
  (E : Type) `{QuillModules.EditorLaws E} (quillImageHandler : E -> E)
  (editor : E) :
  [QuillModules.Button "clear"] ∈ QuillModules.container
  /\ exists cleared,
      QuillModules.invoke quillImageHandler "clear" (Some editor)
      = Some (Some cleared)
      /\ cleared = QuillModules.setSelection 0 0 (QuillModules.setText "" editor)
      /\ QuillModules.getText cleared = QuillModules.line_break
      /\ QuillModules.getText cleared
         = QuillModules.getText (QuillModules.setText "" editor)
      /\ QuillModules.getSelection cleared = Some (0, 0).
Proof.
  split.
  - unfold QuillModules.container. do 5 apply list_elem_of_further.
    apply list_elem_of_here.
  - eexists. split; [reflexivity|]. split; [reflexivity|].
    rewrite QuillModules.getText_setSelection, QuillModules.getText_setText.
    split; [reflexivity|]. split; [reflexivity|].
    apply QuillModules.getSelection_setSelection_start.
Qed.

Lemma clear_handler_blanks_document_witness :
  let editor :=
    {| QuillModules.text := "Everest base camp, day 1" +:+ QuillModules.line_break;
       QuillModules.selection := Some (7, 4) |} in
  QuillModules.EditorLaws QuillModules.plain_editor
  /\ QuillModules.invoke (fun e : QuillModules.plain_editor => e) "clear"
       (Some editor)
     = Some (Some {| QuillModules.text := QuillModules.line_break;
                     QuillModules.selection := Some (0, 0) |}).
Proof.
  intros editor. split; [exact plain_editor_laws|].
  destruct (clear_handler_blanks_document
              QuillModules.plain_editor (H0 := plain_editor_laws)
              (fun e => e) editor)
    as (_ & cleared & -> & -> & _).
  reflexivity.
Defined.

(** * Further properties of the screens *)

(** ** What a list fetch does to the state *)

(** X1. When the department endpoint answers OK with a body that is not
    [null], the list becomes the body's [data], whatever was listed before
    and whatever [data] is ([undefined] when the body has no such
    property); the loading flag ends lowered, nothing is notified and the
    other state cells stay.  When the body is [null], reading [data] fails:
    the list stays and the failure is notified. *)
Theorem fetchDepartments_replaces_list
  (api : string) (s : DepartmentList.state) (status : Z) (body : value) :
  res_ok (Response status (Some body)) = true ->
  let r := run (DepartmentList.fetchDepartments
                  api (Responded status (Some body))) s in
  (forall d, get_prop body "data" = Normal d ->
     DepartmentList.departments (final r) = d
     /\ trace r = [Fetch (GET (api +:+ "/department"))]
     /\ final r
        = final (run (DepartmentList.setDepartments d ;;
                      DepartmentList.setLoading false) s))
  /\ (get_prop body "data" = Throw ->
      DepartmentList.departments (final r) = DepartmentList.departments s
      /\ trace r = [Fetch (GET (api +:+ "/department"));
                    ToastError (VStr "Failed to load departments")]).
Proof.
  intros Hok. cbv zeta. unfold DepartmentList.fetchDepartments. exec.
  rewrite Hok. simpl. split.
  - intros d ->. by repeat split.
  - intros ->. by repeat split.
Qed.

Lemma fetchDepartments_replaces_list_witness :
  let old := VArr [VObj [("id", VStr "9"); ("name", VStr "Old")]] in
  let s := final (run (DepartmentList.setDepartments old)
                      DepartmentList.initial) in
  let body := VObj [("message", VStr "ok")] in
  res_ok (Response 200 (Some body)) = true
  /\ get_prop body "data" = Normal VUndef
  /\ DepartmentList.departments
       (final (run (DepartmentList.fetchDepartments
                      "https://api.test" (Responded 200 (Some body))) s))
     = VUndef.
Proof.
  intros old s body. split; [reflexivity|]. split; [reflexivity|].
  destruct (fetchDepartments_replaces_list
              "https://api.test" s 200 body eq_refl) as (Hdata & _).
  destruct (Hdata VUndef eq_refl) as (Hlist & _). exact Hlist.
Defined.

(** X2. Whatever a list fetch gets back, it never throws, it issues exactly
    one request, the uncached [GET] of its collection without body or
    credentials, it ends with the loading flag lowered, and it leaves the
    dialogs, the edit flag, the remembered identifier and the form values
    alone.  On the team screen the member fetch further leaves the
    department selector, the image reference and the uploading flag alone. *)
Theorem list_fetch_frame
  (api : string) (sd : DepartmentList.state) (st : TeamMemberList.state)
  (o : fetch_outcome) :
  let rd := run (DepartmentList.fetchDepartments api o) sd in
  let rt := run (TeamMemberList.fetchTeamMembers api o) st in
  (outcome rd = Normal tt
   /\ requests (trace rd)
      = [Request "GET" (api +:+ "/department") true false false None]
   /\ DepartmentList.loading (final rd) = false
   /\ final (run (DepartmentList.setDepartments (DepartmentList.departments sd))
                 (final rd))
      = final (run (DepartmentList.setLoading false) sd))
  /\ (outcome rt = Normal tt
      /\ requests (trace rt)
         = [Request "GET" (api +:+ "/team") true false false None]
      /\ TeamMemberList.loading (final rt) = false
      /\ final (run (TeamMemberList.setTeamMembers (TeamMemberList.teamMembers st))
                    (final rt))
         = final (run (TeamMemberList.setLoading false) st)).
Proof.
  cbv zeta.
  unfold DepartmentList.fetchDepartments, TeamMemberList.fetchTeamMembers.
  exec. split.
  - destruct o as [|status [body|]]; simpl; [by repeat split| |];
      (destruct (res_ok _); simpl; [|by repeat split]); [|by repeat split].
    destruct (get_prop body "data"); by repeat split.
  - destruct o as [|status [body|]]; simpl; [by repeat split| |];
      (destruct (res_ok _); simpl; [|by repeat split]); [|by repeat split].
    destruct (get_prop body "data") as [grouped|]; simpl; [|by repeat split].
    destruct (TeamMemberList.flatten grouped); by repeat split.
Qed.

(** ** Grouped responses the member fetch cannot flatten *)

Lemma own_prop_Some_key k v ps : own_prop k ps = Some v -> k ∈ ps.*1.
Proof.
  induction ps as [|[k' v'] ps IH]; simpl; [done|].
  destruct (String.eqb_spec k k') as [->|_]; intros Hk.
  - apply list_elem_of_here.
  - by apply list_elem_of_further, IH.
Qed.

Lemma forEach_push_not_iterable ps k g keys acc :
  own_prop k ps = Some g ->
  spread g = Throw ->
  k ∈ keys ->
  TeamMemberList.forEach_push (VObj ps) keys acc = Throw.
Proof.
  intros Hk Hg. revert acc.
  induction keys as [|k' keys IH]; intros acc Hin.
  - by apply elem_of_nil in Hin.
  - simpl. apply elem_of_cons in Hin as [<-|Hin].
    + by rewrite Hk; simpl; rewrite Hg.
    + destruct (spread (default _ _)); [by apply IH|done].
Qed.

(** X3. The member fetch takes the whole answer or nothing.  When the OK
    answer's [data] is [undefined] or [null], or is an object one of whose
    groups is neither an array nor a text (a [null] group, say), nothing is
    stored: the member list stays as it was, the failure is notified once,
    and the loading flag ends lowered, also when other groups were fine. *)
Theorem fetchTeamMembers_rejects_malformed_groups
  (api : string) (s : TeamMemberList.state) (status : Z)
  (body grouped : value) :
  res_ok (Response status (Some body)) = true ->
  get_prop body "data" = Normal grouped ->
  (grouped = VUndef \/ grouped = VNull
   \/ exists ps k g,
       grouped = VObj ps /\ own_prop k ps = Some g /\ spread g = Throw) ->
  let r := run (TeamMemberList.fetchTeamMembers
                  api (Responded status (Some body))) s in
  TeamMemberList.flatten grouped = Throw
  /\ TeamMemberList.teamMembers (final r) = TeamMemberList.teamMembers s
  /\ TeamMemberList.loading (final r) = false
  /\ trace r = [Fetch (GET (api +:+ "/team"));
                ToastError (VStr "Failed to load team members")].
Proof.
  intros Hok Hdata Hbad.
  assert (TeamMemberList.flatten grouped = Throw) as Hflat.
  { destruct Hbad as [->|[->|(ps & k & g & -> & Hk & Hg)]]; [done..|].
    unfold TeamMemberList.flatten. simpl.
    eapply forEach_push_not_iterable; eauto using own_prop_Some_key. }
  cbv zeta. unfold TeamMemberList.fetchTeamMembers. exec.
  rewrite Hok. simpl. rewrite Hdata, Hflat. by repeat split.
Qed.

Lemma fetchTeamMembers_rejects_malformed_groups_witness :
  let ana := VObj [("id", VStr "m1"); ("name", VStr "Ana")] in
  let s := final (run (TeamMemberList.setTeamMembers [ana])
                      TeamMemberList.initial) in
  let grouped := VObj [("d1", VArr [ana]); ("d2", VNull)] in
  let body := VObj [("data", grouped)] in
  res_ok (Response 200 (Some body)) = true
  /\ get_prop body "data" = Normal grouped
  /\ own_prop "d2" [("d1", VArr [ana]); ("d2", VNull)] = Some VNull
  /\ spread VNull = Throw
  /\ TeamMemberList.teamMembers
       (final (run (TeamMemberList.fetchTeamMembers
                      "https://api.test" (Responded 200 (Some body))) s))
     = [ana].
Proof.
  intros ana s grouped body.
  split; [reflexivity|]. split; [reflexivity|].
  split; [reflexivity|]. split; [reflexivity|].
  destruct (fetchTeamMembers_rejects_malformed_groups
              "https://api.test" s 200 body grouped eq_refl eq_refl)
    as (_ & Hkept & _).
  { right. right. exists [("d1", VArr [ana]); ("d2", VNull)], "d2", VNull.
    by repeat split. }
  exact Hkept.
Defined.

(** ** How a submission ends *)

(** X4. A department submission answered OK with a JSON body never throws.
    It notifies success with a text that depends on the edit flag only (the
    body is not looked at), closes the form dialog, keeps the form values,
    the edit flag and the remembered identifier, and then refetches the
    list: the list becomes the [data] of the refetch when that succeeds, and
    stays as it was, with the failure notified after the success, when the
    refetch fails. *)
Theorem submit_success_closes_and_refetches
  (api : string) (s : DepartmentList.state)
  (data : DepartmentList.DepartmentForm) (status : Z) (body : value)
  (refetch : fetch_outcome) :
  res_ok (Response status (Some body)) = true ->
  let r := run (DepartmentList.onSubmit
                  api data (Responded status (Some body)) refetch) s in
  let said := ToastSuccess
                (VStr (if DepartmentList.isEdit s
                       then "Department updated successfully"
                       else "Department added successfully")) in
  outcome r = Normal tt
  /\ DepartmentList.isDialogOpen (final r) = false
  /\ DepartmentList.form_values (final r) = DepartmentList.form_values s
  /\ DepartmentList.isEdit (final r) = DepartmentList.isEdit s
  /\ DepartmentList.currentDepartmentId (final r)
     = DepartmentList.currentDepartmentId s
  /\ take 3 (trace r)
     = [Fetch (DepartmentList.submit_request api s data); said;
        Fetch (GET (api +:+ "/department"))]
  /\ (forall rstatus rbody rows,
         refetch = Responded rstatus (Some rbody) ->
         res_ok (Response rstatus (Some rbody)) = true ->
         get_prop rbody "data" = Normal rows ->
         DepartmentList.departments (final r) = rows
         /\ filter is_toast (trace r) = [said])
  /\ (list_fetch_failure refetch = true ->
      DepartmentList.departments (final r) = DepartmentList.departments s
      /\ filter is_toast (trace r)
         = [said; ToastError (VStr "Failed to load departments")]).
Proof.
  intros Hok. cbv zeta.
  unfold DepartmentList.onSubmit, DepartmentList.fetchDepartments. exec.
  rewrite Hok. simpl.
  destruct refetch as [|rstatus [rbody|]]; simpl;
    [|destruct (res_ok (Response rstatus (Some rbody))) eqn:Hrok; simpl;
      [destruct (get_prop rbody "data") as [rows|] eqn:Hrows; simpl|]
     |destruct (res_ok (Response rstatus None)) eqn:Hrok; simpl];
    repeat split; intros; simplify_eq/=; try done; congruence.
Qed.

Lemma submit_success_closes_and_refetches_witness :
  let s := final (run DepartmentList.openCreateDialog DepartmentList.initial) in
  let data := {| DepartmentList.form_name := "Guides";
                 DepartmentList.form_description := Some "Trek leaders" |} in
  let created := VObj [("message", VStr "Department created")] in
  let rows := VArr [VObj [("id", VStr "1"); ("name", VStr "Guides")]] in
  let listing := Responded 200 (Some (VObj [("data", rows)])) in
  let r := run (DepartmentList.onSubmit
                  "https://api.test" data (Responded 201 (Some created))
                  listing) s in
  res_ok (Response 201 (Some created)) = true
  /\ DepartmentList.isDialogOpen s = true
  /\ DepartmentList.isDialogOpen (final r) = false
  /\ DepartmentList.departments (final r) = rows
  /\ filter is_toast (trace r)
     = [ToastSuccess (VStr "Department added successfully")].
Proof.
  intros s data created rows listing r.
  split; [reflexivity|]. split; [reflexivity|].
  destruct (submit_success_closes_and_refetches
              "https://api.test" s data 201 created listing eq_refl)
    as (_ & Hclosed & _ & _ & _ & _ & Hrows & _).
  destruct (Hrows 200%Z (VObj [("data", rows)]) rows eq_refl eq_refl eq_refl)
    as (Hlist & Hsaid).
  split; [exact Hclosed|]. split; [exact Hlist | exact Hsaid].
Defined.

(** X5. A submission the server turns down (a status that is not OK, with a
    JSON body) changes nothing on the screen: the form dialog stays as it
    is, open with the values entered, and the list is not refetched.  One
    error is notified: the body's [message] when it is truthy, and
    "Something went wrong" otherwise, for instance when the body is [null]
    or has no message.  On both screens. *)
Theorem submit_rejection_keeps_dialog_and_values
  (api : string) (sd : DepartmentList.state) (st : TeamMemberList.state)
  (dept : DepartmentList.DepartmentForm)
  (member : TeamMemberList.TeamMemberForm)
  (status : Z) (body : value) (refetch : fetch_outcome) :
  res_ok (Response status (Some body)) = false ->
  let said :=
    ToastError (if truthy (opt_chain body "message")
                then opt_chain body "message"
                else VStr "Something went wrong") in
  run (DepartmentList.onSubmit api dept (Responded status (Some body)) refetch)
      sd
  = (Normal tt,
     World sd [Fetch (DepartmentList.submit_request api sd dept); said])
  /\ run (TeamMemberList.onSubmit
            api member (Responded status (Some body)) refetch) st
     = (Normal tt,
        World st [Fetch (TeamMemberList.submit_request api st member); said]).
Proof.
  intros Hok. cbv zeta.
  unfold DepartmentList.onSubmit, TeamMemberList.onSubmit. exec.
  rewrite Hok. simpl. unfold js_or. by destruct sd, st.
Qed.

Lemma submit_rejection_keeps_dialog_and_values_witness :
  let row := {| DepartmentList.dept_id := "3";
                DepartmentList.dept_name := "Guides";
                DepartmentList.dept_description := None |} in
  let sd := final (run (DepartmentList.openEditDialog row)
                       DepartmentList.initial) in
  let data := {| DepartmentList.form_name := "Porters";
                 DepartmentList.form_description := Some "" |} in
  let body := VObj [("message", VStr "Department name already exists")] in
  let r := run (DepartmentList.onSubmit
                  "https://api.test" data (Responded 409 (Some body)) Rejected)
               sd in
  res_ok (Response 409 (Some body)) = false
  /\ DepartmentList.isDialogOpen (final r) = true
  /\ trace r
     = [Fetch (Request "PATCH" "https://api.test/department/3" false true true
                       (Some (VObj [("name", VStr "Porters");
                                    ("description", VStr "")])));
        ToastError (VStr "Department name already exists")].
Proof.
  intros row sd data body r. split; [reflexivity|].
  destruct (submit_rejection_keeps_dialog_and_values
              "https://api.test" sd TeamMemberList.initial data
              TeamMemberList.blank 409 body Rejected eq_refl) as (Hrun & _).
  unfold r. rewrite Hrun. by split.
Defined.

(** ** The image upload and the payload that follows *)

(** X6. Picking a file never throws and always ends with the uploading flag
    lowered.  When the upload succeeds, the reference it returned is stored
    and success is notified; when it fails, the failure is notified and no
    reference is stored any more, not even the one that was stored before
    the file was picked.  Nothing else of the state changes.  With no file
    picked, nothing happens at all. *)
Theorem handleImageChange_outcomes
  (s : TeamMemberList.state) (file : File) (imageUrl : string)
  (o : TeamMemberList.upload_outcome) :
  let stored :=
    run (TeamMemberList.handleImageChange
           (Some file) (TeamMemberList.Uploaded imageUrl)) s in
  let failed :=
    run (TeamMemberList.handleImageChange
           (Some file) TeamMemberList.UploadRejected) s in
  let rest_of (s' : TeamMemberList.state) :=
    final (run (TeamMemberList.setMemberImageLink
                  (TeamMemberList.memberImageLink s) ;;
                TeamMemberList.setIsUploading (TeamMemberList.isUploading s))
               s') in
  (outcome stored = Normal tt
   /\ TeamMemberList.memberImageLink (final stored) = Some imageUrl
   /\ TeamMemberList.isUploading (final stored) = false
   /\ trace stored
      = [Upload file; ToastSuccess (VStr "Image uploaded successfully")]
   /\ rest_of (final stored) = s)
  /\ (outcome failed = Normal tt
      /\ TeamMemberList.memberImageLink (final failed) = None
      /\ TeamMemberList.isUploading (final failed) = false
      /\ trace failed = [Upload file; ToastError (VStr "Image upload failed")]
      /\ rest_of (final failed) = s)
  /\ run (TeamMemberList.handleImageChange None o) s = (Normal tt, World s []).
Proof.
  cbv zeta.
  unfold TeamMemberList.handleImageChange,
    TeamMemberList.handleImageChange_resume. exec.
  by destruct s.
Qed.

(** X7. The submission that follows an upload carries what the upload left.
    After a failed upload the payload is the form data alone, without an
    [image], also when a reference was stored before.  After an upload that
    returned a non-empty reference the payload is the form data followed by
    that reference as [image]. *)
Theorem upload_then_submit_payload
  (api : string) (s : TeamMemberList.state) (file : File)
  (imageUrl : string) (data : TeamMemberList.TeamMemberForm)
  (o refetch : fetch_outcome) :
  let after (u : TeamMemberList.upload_outcome) :=
    final (run (TeamMemberList.handleImageChange (Some file) u) s) in
  let first_body (s' : TeamMemberList.state) :=
    req_body
      <$> head (requests
                  (trace (run (TeamMemberList.onSubmit api data o refetch) s')))
  in
  first_body (after TeamMemberList.UploadRejected)
  = Some (Some (VObj (TeamMemberList.form_json data)))
  /\ (imageUrl <> "" ->
      first_body (after (TeamMemberList.Uploaded imageUrl))
      = Some (Some (VObj (TeamMemberList.form_json data
                          ++ [("image", VStr imageUrl)])))).
Proof.
  cbv zeta. split.
  - destruct (TeamMemberList_onSubmit_trace
                api
                (final (run (TeamMemberList.handleImageChange
                               (Some file) TeamMemberList.UploadRejected) s))
                data o refetch) as (rest & -> & _).
    reflexivity.
  - intros Hne%String.eqb_neq.
    destruct (TeamMemberList_onSubmit_trace
                api
                (final (run (TeamMemberList.handleImageChange
                               (Some file) (TeamMemberList.Uploaded imageUrl))
                            s))
                data o refetch) as (rest & -> & _).
    simpl. unfold TeamMemberList.submit_payload. simpl. by rewrite Hne.
Qed.

Lemma upload_then_submit_payload_witness :
  let member := {| TeamMemberList.member_id := "m1";
                   TeamMemberList.member_name := "Ana";
                   TeamMemberList.member_designation := "Guide";
                   TeamMemberList.member_about := "Leads treks";
                   TeamMemberList.member_image := Some "team/ana-old.jpg";
                   TeamMemberList.member_departmentId := Some "d1" |} in
  let s := final (run (TeamMemberList.openEditDialog member)
                      TeamMemberList.initial) in
  let photo := {| file_name := "ana.jpg" |} in
  let uploaded :=
    final (run (TeamMemberList.handleImageChange
                  (Some photo) (TeamMemberList.Uploaded "team/ana.jpg")) s) in
  "team/ana.jpg" <> ""
  /\ req_body
       <$> head (requests
                   (trace (run (TeamMemberList.onSubmit
                                  "https://api.test"
                                  (TeamMemberList.form_values s)
                                  Rejected Rejected) uploaded)))
     = Some (Some (VObj [("name", VStr "Ana"); ("designation", VStr "Guide");
                         ("about", VStr "Leads treks");
                         ("departmentId", VStr "d1");
                         ("image", VStr "team/ana.jpg")])).
Proof.
  intros member s photo uploaded.
  assert ("team/ana.jpg" <> "") as Hne by discriminate.
  split; [exact Hne|].
  destruct (upload_then_submit_payload
              "https://api.test" s photo "team/ana.jpg"
              (TeamMemberList.form_values s) Rejected Rejected) as (_ & Hsent).
  exact (Hsent Hne).
Defined.

(** ** Opening the form and submitting it *)

(** X8. Whatever state the department screen is in, the edit button of a
    row opens the form filled with the row's name and description (empty
    when the row has none), and the submission that follows is a [PATCH] to
    that row's address carrying the submitted values as JSON with
    credentials; the add button opens the form blank, and the submission
    that follows is a [POST] to the collection root.  Neither button sends
    anything or touches the list. *)
Theorem dialog_then_submit_targets
  (api : string) (s : DepartmentList.state)
  (row : DepartmentList.Department) (data : DepartmentList.DepartmentForm)
  (o refetch : fetch_outcome) :
  let editing := run (DepartmentList.openEditDialog row) s in
  let adding := run DepartmentList.openCreateDialog s in
  let first_request (s' : DepartmentList.state) :=
    head (requests
            (trace (run (DepartmentList.onSubmit api data o refetch) s'))) in
  (trace editing = []
   /\ DepartmentList.isDialogOpen (final editing) = true
   /\ DepartmentList.departments (final editing) = DepartmentList.departments s
   /\ DepartmentList.form_values (final editing)
      = {| DepartmentList.form_name := DepartmentList.dept_name row;
           DepartmentList.form_description :=
             Some (default "" (DepartmentList.dept_description row)) |}
   /\ first_request (final editing)
      = Some (Request "PATCH"
                      (api +:+ "/department/" +:+ DepartmentList.dept_id row)
                      false true true (Some (DepartmentList.form_json data))))
  /\ (trace adding = []
      /\ DepartmentList.isDialogOpen (final adding) = true
      /\ DepartmentList.departments (final adding) = DepartmentList.departments s
      /\ DepartmentList.form_values (final adding)
         = {| DepartmentList.form_name := "";
              DepartmentList.form_description := Some "" |}
      /\ first_request (final adding)
         = Some (Request "POST" (api +:+ "/department") false true true
                         (Some (DepartmentList.form_json data)))).
Proof.
  cbv zeta. split; (repeat split; [..|
    match goal with
    | |- context [run (DepartmentList.onSubmit _ _ _ _) ?s'] =>
        destruct (DepartmentList_onSubmit_trace api s' data o refetch)
          as (rest & -> & _)
    end; reflexivity]).
Qed.

(** X9. On the team screen the edit button of a row remembers the row's
    image reference, so the [PATCH] that follows sends it again as [image]
    when it is non-empty, and sends no [image] when the row has none.  The
    add button forgets any stored reference: the [POST] that follows
    carries the form data alone, whatever was stored before. *)
Theorem member_dialog_then_submit_payload
  (api : string) (s : TeamMemberList.state)
  (member : TeamMemberList.TeamMember)
  (data : TeamMemberList.TeamMemberForm) (o refetch : fetch_outcome) :
  let editing := final (run (TeamMemberList.openEditDialog member) s) in
  let adding := final (run TeamMemberList.openCreateDialog s) in
  let first_request (s' : TeamMemberList.state) :=
    head (requests
            (trace (run (TeamMemberList.onSubmit api data o refetch) s'))) in
  TeamMemberList.form_values editing
  = {| TeamMemberList.form_name := TeamMemberList.member_name member;
       TeamMemberList.form_designation :=
         TeamMemberList.member_designation member;
       TeamMemberList.form_about := TeamMemberList.member_about member;
       TeamMemberList.form_departmentId :=
         default "" (TeamMemberList.member_departmentId member) |}
  /\ first_request editing
     = Some (Request "PATCH"
                     (api +:+ "/team/" +:+ TeamMemberList.member_id member)
                     false true true
                     (Some (VObj (TeamMemberList.form_json data
                                  ++ if truthy_ref
                                          (TeamMemberList.member_image member)
                                     then [("image",
                                            VStr (template_of
                                                    (TeamMemberList.member_image
                                                       member)))]
                                     else []))))
  /\ TeamMemberList.form_values adding = TeamMemberList.blank
  /\ first_request adding
     = Some (Request "POST" (api +:+ "/team") false true true
                     (Some (VObj (TeamMemberList.form_json data)))).
Proof.
  cbv zeta. repeat split.
  - destruct (TeamMemberList_onSubmit_trace
                api (final (run (TeamMemberList.openEditDialog member) s))
                data o refetch) as (rest & -> & _).
    simpl. unfold TeamMemberList.submit_request. simpl.
    unfold TeamMemberList.submit_payload.
    destruct (TeamMemberList.member_image member) as [image|]; simpl;
      [destruct (String.eqb image "")|]; reflexivity.
  - destruct (TeamMemberList_onSubmit_trace
                api (final (run TeamMemberList.openCreateDialog s))
                data o refetch) as (rest & -> & _).
    reflexivity.
Qed.

(** ** Deleting in two steps *)

(** A delete logs its request first; whatever request follows is the [GET]
    of the list fetch. *)
Lemma DepartmentList_deleteDepartment_trace api id o refetch w :
  exists rest,
    log (DepartmentList.deleteDepartment api id o refetch w).2
    = log w
      ++ Fetch (Request "DELETE" (api +:+ "/department/" +:+ id)
                        false false true None) :: rest
    /\ Forall (fun r => req_method r = "GET") (requests rest).
Proof.
  pose proof (DepartmentList_fetchDepartments_log api refetch) as Hlog.
  unfold DepartmentList.deleteDepartment.
  generalize dependent (DepartmentList.fetchDepartments api refetch).
  intros list_fetch Hlog. exec.
  destruct o as [|status [body|]]; simpl;
    try (eexists; split; [reflexivity|constructor]).
  destruct (res_ok _); simpl.
  - match goal with |- context [list_fetch ?w] =>
      destruct (Hlog w) as (evs & -> & Hrest) end.
    simpl. rewrite <- !app_assoc. simpl. eexists; split; [reflexivity|].
    destruct Hrest as [->| ->]; by repeat constructor.
  - rewrite <- !app_assoc. simpl. eexists; split; [reflexivity|constructor].
Qed.

Lemma TeamMemberList_deleteTeamMember_trace api id o refetch w :
  exists rest,
    log (TeamMemberList.deleteTeamMember api id o refetch w).2
    = log w
      ++ Fetch (Request "DELETE" (api +:+ "/team/" +:+ id)
                        false false true None) :: rest
    /\ Forall (fun r => req_method r = "GET") (requests rest).
Proof.
  pose proof (TeamMemberList_fetchTeamMembers_log api refetch) as Hlog.
  unfold TeamMemberList.deleteTeamMember.
  generalize dependent (TeamMemberList.fetchTeamMembers api refetch).
  intros list_fetch Hlog. exec.
  destruct o as [|status [body|]]; simpl;
    try (eexists; split; [reflexivity|constructor]).
  destruct (res_ok _); simpl.
  - match goal with |- context [list_fetch ?w] =>
      destruct (Hlog w) as (evs & -> & Hrest) end.
    simpl. rewrite <- !app_assoc. simpl. eexists; split; [reflexivity|].
    destruct Hrest as [->| ->]; by repeat constructor.
  - rewrite <- !app_assoc. simpl. eexists; split; [reflexivity|constructor].
Qed.

(** X11. Deleting takes two steps on both screens.  The trash button of a
    row sends nothing and changes no list: it records the row's identifier
    and opens the confirmation.  The Delete button that follows closes the
    confirmation and, when the identifier is a non-empty text, sends first a
    [DELETE] to that row's address, with credentials and without a body,
    any later request being the [GET] of the refetch; for a row whose
    identifier is the empty text it sends nothing at all. *)
Theorem delete_takes_two_steps
  (api : string) (sd : DepartmentList.state) (st : TeamMemberList.state)
  (row : DepartmentList.Department) (member : TeamMemberList.TeamMember)
  (o refetch : fetch_outcome) :
  let picked_d := run (DepartmentList.onClick_row_delete row) sd in
  let rd := run (DepartmentList.onClick_delete api o refetch) (final picked_d) in
  let picked_t := run (TeamMemberList.onClick_row_delete member) st in
  let rt := run (TeamMemberList.onClick_delete api o refetch) (final picked_t) in
  (trace picked_d = []
   /\ DepartmentList.departments (final picked_d) = DepartmentList.departments sd
   /\ DepartmentList.isDeleteDialogOpen (final picked_d) = true
   /\ DepartmentList.isDeleteDialogOpen (final rd) = false
   /\ (DepartmentList.dept_id row <> "" ->
       exists rest,
         trace rd
         = Fetch (Request "DELETE"
                          (api +:+ "/department/" +:+ DepartmentList.dept_id row)
                          false false true None) :: rest
         /\ Forall (fun r => req_method r = "GET") (requests rest))
   /\ (DepartmentList.dept_id row = "" -> trace rd = []))
  /\ (trace picked_t = []
      /\ TeamMemberList.teamMembers (final picked_t)
         = TeamMemberList.teamMembers st
      /\ TeamMemberList.isDeleteDialogOpen (final picked_t) = true
      /\ TeamMemberList.isDeleteDialogOpen (final rt) = false
      /\ (TeamMemberList.member_id member <> "" ->
          exists rest,
            trace rt
            = Fetch (Request "DELETE"
                             (api +:+ "/team/" +:+ TeamMemberList.member_id member)
                             false false true None) :: rest
            /\ Forall (fun r => req_method r = "GET") (requests rest))
      /\ (TeamMemberList.member_id member = "" -> trace rt = [])).
Proof.
  cbv zeta. split.
  - unfold DepartmentList.onClick_delete, DepartmentList.onClick_row_delete.
    exec.
    destruct (String.eqb_spec (DepartmentList.dept_id row) "") as [Hid|Hid];
      simpl; repeat split; try done.
    intros _.
    match goal with
    | |- context [DepartmentList.deleteDepartment api ?id o refetch ?w] =>
        destruct (DepartmentList_deleteDepartment_trace api id o refetch w)
          as (rest & -> & Hget)
    end.
    by exists rest.
  - unfold TeamMemberList.onClick_delete, TeamMemberList.onClick_row_delete.
    exec.
    destruct (String.eqb_spec (TeamMemberList.member_id member) "") as [Hid|Hid];
      simpl; repeat split; try done.
    intros _.
    match goal with
    | |- context [TeamMemberList.deleteTeamMember api ?id o refetch ?w] =>
        destruct (TeamMemberList_deleteTeamMember_trace api id o refetch w)
          as (rest & -> & Hget)
    end.
    by exists rest.
Qed.

Lemma delete_takes_two_steps_witness :
  let row := {| DepartmentList.dept_id := "3";
                DepartmentList.dept_name := "Guides";
                DepartmentList.dept_description := None |} in
  let member := {| TeamMemberList.member_id := "";
                   TeamMemberList.member_name := "Ana";
                   TeamMemberList.member_designation := "Guide";
                   TeamMemberList.member_about := "Leads treks";
                   TeamMemberList.member_image := None;
                   TeamMemberList.member_departmentId := None |} in
  let gone := Responded 200 (Some (VObj [("message", VStr "gone")])) in
  DepartmentList.dept_id row <> ""
  /\ TeamMemberList.member_id member = ""
  /\ (exists rest,
         trace (run (DepartmentList.onClick_delete "https://api.test" gone Rejected)
                    (final (run (DepartmentList.onClick_row_delete row)
                                DepartmentList.initial)))
         = Fetch (Request "DELETE" "https://api.test/department/3"
                          false false true None) :: rest)
  /\ trace (run (TeamMemberList.onClick_delete "https://api.test" gone Rejected)
                (final (run (TeamMemberList.onClick_row_delete member)
                            TeamMemberList.initial))) = [].
Proof.
  intros row member gone.
  assert (DepartmentList.dept_id row <> "") as Hne by discriminate.
  split; [exact Hne|]. split; [reflexivity|].
  destruct (delete_takes_two_steps
              "https://api.test" DepartmentList.initial TeamMemberList.initial
              row member gone Rejected)
    as ((_ & _ & _ & _ & Hsent & _) & (_ & _ & _ & _ & _ & Hnone)).
  destruct (Hsent Hne) as (rest & Htrace & _).
  split; [by exists rest | exact (Hnone eq_refl)].
Defined.

(** X12. A confirmed delete of a team member whose answer has a JSON body
    closes the confirmation.  With an OK status the delete request is
    followed by the success notification, the body's [message] when that is
    truthy and "Team member deleted!" otherwise, and then by the [GET] of
    the member list, after which no request is made; with any other status
    it is followed by one error notification, the body's [message] when
    truthy and "Delete failed" otherwise, and the member list is neither
    refetched nor changed. *)
Theorem confirmed_member_delete_notifies_then_refetches
  (api : string) (s : TeamMemberList.state) (id : string) (status : Z)
  (body : value) (refetch : fetch_outcome) :
  TeamMemberList.currentMemberId s = Some id ->
  id <> "" ->
  let r := run (TeamMemberList.onClick_delete
                  api (Responded status (Some body)) refetch) s in
  let del := Request "DELETE" (api +:+ "/team/" +:+ id) false false true None in
  let message := opt_chain body "message" in
  TeamMemberList.isDeleteDialogOpen (final r) = false
  /\ (res_ok (Response status (Some body)) = true ->
      exists rest,
        trace r
        = Fetch del
          :: ToastSuccess (if truthy message then message
                           else VStr "Team member deleted!")
          :: Fetch (GET (api +:+ "/team")) :: rest
        /\ requests rest = [])
  /\ (res_ok (Response status (Some body)) = false ->
      trace r
      = [Fetch del;
         ToastError (if truthy message then message else VStr "Delete failed")]
      /\ TeamMemberList.teamMembers (final r) = TeamMemberList.teamMembers s).
Proof.
  intros Hid Hne. cbv zeta.
  pose proof (TeamMemberList_fetchTeamMembers_log api refetch) as Hlog.
  unfold TeamMemberList.onClick_delete, TeamMemberList.deleteTeamMember.
  generalize dependent (TeamMemberList.fetchTeamMembers api refetch).
  intros list_fetch Hlog. exec. rewrite Hid.
  apply String.eqb_neq in Hne. simpl. rewrite Hne. simpl.
  destruct (res_ok _); simpl.
  - split; [done|]. split; [|done]. intros _.
    match goal with |- context [list_fetch ?w] =>
      destruct (Hlog w) as (rest & -> & Hrest) end.
    simpl. unfold js_or. exists rest. split; [done|].
    by destruct Hrest as [->| ->].
  - split; [done|]. split; [done|]. intros _. unfold js_or. by repeat split.
Qed.

Lemma confirmed_member_delete_notifies_then_refetches_witness :
  let member := {| TeamMemberList.member_id := "m7";
                   TeamMemberList.member_name := "Ana";
                   TeamMemberList.member_designation := "Guide";
                   TeamMemberList.member_about := "Leads treks";
                   TeamMemberList.member_image := None;
                   TeamMemberList.member_departmentId := None |} in
  let s := final (run (TeamMemberList.onClick_row_delete member)
                      TeamMemberList.initial) in
  let body := VObj [("error", VStr "Forbidden")] in
  TeamMemberList.currentMemberId s = Some "m7"
  /\ "m7" <> ""
  /\ res_ok (Response 403 (Some body)) = false
  /\ trace (run (TeamMemberList.onClick_delete
                   "https://api.test" (Responded 403 (Some body)) Rejected) s)
     = [Fetch (Request "DELETE" "https://api.test/team/m7"
                       false false true None);
        ToastError (VStr "Delete failed")].
Proof.
  intros member s body.
  assert ("m7" <> "") as Hne by discriminate.
  split; [reflexivity|]. split; [exact Hne|]. split; [reflexivity|].
  destruct (confirmed_member_delete_notifies_then_refetches
              "https://api.test" s "m7" 403 body Rejected eq_refl Hne)
    as (_ & _ & Hfail).
  destruct (Hfail eq_refl) as (Htrace & _). exact Htrace.
Defined.

(** ** The tables *)







(** An entry of the declared [Department] shape renders: an object whose
    name is a text, whose description is a text or missing and whose teams
    are an array or missing. *)
Lemma DepartmentList_typed_entry_renders ps name :
  own_prop "name" ps = Some (VStr name) ->
  (own_prop "description" ps = None
   \/ exists description, own_prop "description" ps = Some (VStr description)) ->
  (own_prop "teams" ps = None
   \/ exists teams, own_prop "teams" ps = Some (VArr teams)) ->
  DepartmentList_row_renders (VObj ps) = true.
Proof.
  intros Hname Hdesc Hteams. unfold DepartmentList_row_renders, opt_chain.
  simpl. rewrite Hname. simpl.
  destruct Hdesc as [->|[description ->]], Hteams as [->|[teams ->]]; simpl;
    rewrite ?orb_true_r; try done; unfold js_or; simpl;
    by destruct (Z.of_nat (length teams) =? 0)%Z.
Qed.














(** ** Mounting the team screen *)

(** Cutting a list fetch at its [await] changes nothing of it. *)
Lemma TeamMemberList_fetch_cut api o w :
  TeamMemberList.fetchDepartments api o w
  = bind (TeamMemberList.fetchDepartments_begin api)
         (fun _ => TeamMemberList.fetchDepartments_resume o) w
  /\ TeamMemberList.fetchTeamMembers api o w
     = bind (TeamMemberList.fetchTeamMembers_begin api)
            (fun _ => TeamMemberList.fetchTeamMembers_resume o) w.
Proof.
  unfold TeamMemberList.fetchDepartments, TeamMemberList.fetchTeamMembers,
    TeamMemberList.fetchDepartments_begin, TeamMemberList.fetchTeamMembers_begin,
    TeamMemberList.fetchDepartments_resume,
    TeamMemberList.fetchTeamMembers_resume, settle.
  exec. by destruct o.
Qed.

(** X17. Mounting the team screen never throws and always sends two
    requests, the [GET] of the departments and then the [GET] of the
    members, both before any answer is handled and whatever the answers
    are.  In whichever order the two answers arrive, the fetches do not get
    in each other's way: the member list ends as the member fetch alone
    would leave it, and the department selector as the department fetch
    alone would. *)
Theorem mount_fetches_departments_and_members
  (api : string) (s : TeamMemberList.state)
  (o_departments o_team : fetch_outcome) (team_first : bool) :
  let r := run (TeamMemberList.mount api o_departments o_team team_first) s in
  outcome r = Normal tt
  /\ requests (trace r)
     = [GET (api +:+ "/department"); GET (api +:+ "/team")]
  /\ take 2 (trace r)
     = [Fetch (GET (api +:+ "/department")); Fetch (GET (api +:+ "/team"))]
  /\ TeamMemberList.teamMembers (final r)
     = TeamMemberList.teamMembers
         (final (run (TeamMemberList.fetchTeamMembers api o_team) s))
  /\ TeamMemberList.departments (final r)
     = TeamMemberList.departments
         (final (run (TeamMemberList.fetchDepartments api o_departments) s))
  /\ TeamMemberList.loading (final r) = false.
Proof.
  cbv zeta.
  unfold TeamMemberList.mount, TeamMemberList.fetchDepartments,
    TeamMemberList.fetchTeamMembers, TeamMemberList.fetchDepartments_begin,
    TeamMemberList.fetchTeamMembers_begin,
    TeamMemberList.fetchDepartments_resume,
    TeamMemberList.fetchTeamMembers_resume, settle.
  destruct team_first; exec; branches; by repeat split.
Qed.

(** ** The custom handlers of the toolbar *)

(** X18. The toolbar configuration registers custom handlers under [image]
    and [clear] only, and both names are buttons of the toolbar; every other
    button is left to the editor's built-in behaviour.  On a live editor the
    [image] handler hands that editor to the image routine.  With no editor
    mounted neither handler reaches the editor or the image routine: the
    reference stays empty. *)
Theorem toolbar_custom_handlers
  (E : Type) `{QuillModules.Editor E} (quillImageHandler : E -> E)
  (editor : E) (ref : QuillModules.quillRef) :
  QuillModules.invoke quillImageHandler "image" (Some editor)
  = Some (Some (quillImageHandler editor))
  /\ QuillModules.invoke quillImageHandler "image" None = Some None
  /\ QuillModules.invoke quillImageHandler "clear" None = Some None
  /\ (forall name,
         name <> "image" -> name <> "clear" ->
         QuillModules.invoke quillImageHandler name ref = None)
  /\ (forall name,
         is_Some (QuillModules.invoke quillImageHandler name ref) ->
         exists group,
           group ∈ QuillModules.container /\ QuillModules.Button name ∈ group).
Proof.
  assert (forall name,
             name <> "image" -> name <> "clear" ->
             QuillModules.invoke quillImageHandler name ref = None) as Hother.
  { intros name Himage Hclear. unfold QuillModules.invoke. simpl.
    rewrite decide_False by congruence. simpl.
    rewrite decide_False by congruence. done. }
  repeat split; [exact Hother|].
  intros name Hsome.
  destruct (decide (name = "image")) as [->|Himage].
  { exists [QuillModules.Button "link"; QuillModules.Button "image"].
    split; [|apply list_elem_of_further, list_elem_of_here].
    unfold QuillModules.container. do 3 apply list_elem_of_further.
    apply list_elem_of_here. }
  destruct (decide (name = "clear")) as [->|Hclear].
  { exists [QuillModules.Button "clear"].
    split; [|apply list_elem_of_here].
    unfold QuillModules.container. do 5 apply list_elem_of_further.
    apply list_elem_of_here. }
  rewrite (Hother name Himage Hclear) in Hsome. by destruct Hsome.
Qed.

Lemma toolbar_custom_handlers_witness :
  let editor := {| QuillModules.text := "Day 1";
                   QuillModules.selection := None |} in
  let insert (e : QuillModules.plain_editor) :=
    {| QuillModules.text := QuillModules.text e +:+ "[image]";
       QuillModules.selection := QuillModules.selection e |} in
  "clean" <> "image"
  /\ "clean" <> "clear"
  /\ QuillModules.invoke insert "clean" (Some editor) = None.
Proof.
  intros editor insert.
  assert ("clean" <> "image") as Himage by discriminate.
  assert ("clean" <> "clear") as Hclear by discriminate.
  split; [exact Himage|]. split; [exact Hclear|].
  destruct (toolbar_custom_handlers
              QuillModules.plain_editor insert editor (Some editor))
    as (_ & _ & _ & Hother & _).
  exact (Hother "clean" Himage Hclear).
Defined.
